(** * Grasp-pose registration pipeline (pcd_registration.py)

    A shallow embedding of [grasping_demo/pcd_registration.py]: the module-level
    initialisation (lines 9-78) and the functions [preprocess_point_cloud],
    [execute_fast_global_registration], [refine_registration] and
    [get_target_grasp_pose].

    The program is Python glue around three libraries (Open3D, NumPy,
    numpy-quaternion).  Python objects live in a heap and are handled through
    references; the calls that update their receiver in place
    ([transform], [paint_uniform_color], [estimate_normals], attribute
    assignment) overwrite the heap cell, the calls that return a new object
    ([voxel_down_sample], [crop], [compute_fpfh_feature], [deepcopy],
    constructors) allocate one.  The numerical kernels of the libraries are the
    operations of a [GeometryProvider]; the scalars are an abstract type with
    the two operations [np.matmul] needs, so that every statement below holds
    for IEEE doubles as well as for exact rationals. *)

From Stdlib Require Import QArith Qabs Qround Qminmax Ring.
From stdpp Require Import base list strings gmap.

Close Scope Q_scope.
Open Scope string_scope.
Open Scope nat_scope.

(** ** Exceptions *)

(** A raised Python exception: its class name and message.  The program
    defines no exception class and has no [raise] or [try]; every exception
    comes out of a library call or out of the interpreter. *)
Record PyErr := { exn_class : string; exn_msg : string }.

Inductive result (A : Type) :=
  | Ok (a : A)
  | Err (e : PyErr).
Global Arguments Ok {A} a.
Global Arguments Err {A} e.

(** ** Scalars, vectors, matrices *)

(** Python floats (float64).  [flit] is the value of a decimal literal. *)
Class Scalar := {
  F : Type;
  fadd : F → F → F;
  fmul : F → F → F;
  flit : Q → F;
}.

Section Model.
Context `{Scalar}.

Definition fzero : F := flit (0 # 1).
Definition fone : F := flit (1 # 1).

Definition vec3 : Type := F * F * F.
Definition vec4 : Type := F * F * F * F.
(** A 3x3 / 4x4 ndarray, row by row. *)
Definition mat3 : Type := vec3 * vec3 * vec3.
Definition mat4 : Type := vec4 * vec4 * vec4 * vec4.

Definition dot4 (a b : vec4) : F :=
  let '(a0, a1, a2, a3) := a in
  let '(b0, b1, b2, b3) := b in
  fadd (fadd (fadd (fmul a0 b0) (fmul a1 b1)) (fmul a2 b2)) (fmul a3 b3).

Definition col0 (m : mat4) : vec4 :=
  let '((a, _, _, _), (b, _, _, _), (c, _, _, _), (d, _, _, _)) := m in (a, b, c, d).
Definition col1 (m : mat4) : vec4 :=
  let '((_, a, _, _), (_, b, _, _), (_, c, _, _), (_, d, _, _)) := m in (a, b, c, d).
Definition col2 (m : mat4) : vec4 :=
  let '((_, _, a, _), (_, _, b, _), (_, _, c, _), (_, _, d, _)) := m in (a, b, c, d).
Definition col3 (m : mat4) : vec4 :=
  let '((_, _, _, a), (_, _, _, b), (_, _, _, c), (_, _, _, d)) := m in (a, b, c, d).

Definition row_times (r : vec4) (m : mat4) : vec4 :=
  (dot4 r (col0 m), dot4 r (col1 m), dot4 r (col2 m), dot4 r (col3 m)).

(** [np.matmul] on two 4x4 arrays: entry (i,j) is the sum over k of
    [a[i][k] * b[k][j]], accumulated from k = 0 upwards. *)
Definition matmul (a b : mat4) : mat4 :=
  let '(r0, r1, r2, r3) := a in
  (row_times r0 b, row_times r1 b, row_times r2 b, row_times r3 b).

(** The matrix applied to the homogeneous column vector [v]. *)
Definition mat_apply (m : mat4) (v : vec4) : vec4 :=
  let '(r0, r1, r2, r3) := m in (dot4 r0 v, dot4 r1 v, dot4 r2 v, dot4 r3 v).

Definition identity4 : mat4 :=
  ((fone, fzero, fzero, fzero),
   (fzero, fone, fzero, fzero),
   (fzero, fzero, fone, fzero),
   (fzero, fzero, fzero, fone)).

(** [m[:-1, :-1]]: the rotation block. *)
Definition rotation_block (m : mat4) : mat3 :=
  let '((a, b, c, _), (d, e, f, _), (g, h, i, _), _) := m in
  ((a, b, c), (d, e, f), (g, h, i)).

(** [m[:-1, -1]]: the translation column. *)
Definition translation_column (m : mat4) : vec3 :=
  let '((_, _, _, x), (_, _, _, y), (_, _, _, z), _) := m in (x, y, z).

Definition mat4_entries (m : mat4) : list F :=
  let '((a0, a1, a2, a3), (b0, b1, b2, b3), (c0, c1, c2, c3), (d0, d1, d2, d3)) := m in
  [a0; a1; a2; a3; b0; b1; b2; b3; c0; c1; c2; c3; d0; d1; d2; d3].

(** ** Library data *)

(** [open3d.geometry.PointCloud]: points with optional normals and colours. *)
Record PointCloud := {
  points : list vec3;
  normals : list vec3;
  colors : list vec3;
}.

Record KDTreeSearchParamHybrid := { radius : F; max_nn : nat }.

(** Only [maximum_correspondence_distance] is set by the program; the other
    fields keep the library's defaults. *)
Record FastGlobalRegistrationOption := { maximum_correspondence_distance : F }.

Inductive TransformationEstimation :=
  | TransformationEstimationPointToPoint
  | TransformationEstimationPointToPlane.

Record RegistrationResult := {
  transformation : mat4;
  fitness : F;
  inlier_rmse : F;
  correspondence_set : list (nat * nat);
}.

(** [geometry_msgs/PoseStamped]. *)
Record Header := { seq : nat; stamp : nat * nat; frame_id : string }.
Record Point := { px : F; py : F; pz : F }.
Record Quaternion := { qx : F; qy : F; qz : F; qw : F }.
Record Pose := { position : Point; orientation : Quaternion }.
Record PoseStamped := { header : Header; pose : Pose }.

(** [PoseStamped()]: the message constructor fills every numeric field with
    zero and every string with the empty string. *)
Definition PoseStamped_new : PoseStamped :=
  {| header := {| seq := 0; stamp := (0, 0); frame_id := "" |};
     pose := {| position := {| px := fzero; py := fzero; pz := fzero |};
                orientation := {| qx := fzero; qy := fzero; qz := fzero; qw := fzero |} |} |}.

End Model.

(** The sum of four products, accumulated from the left.  Entry (i, j) of the
    product of two 4x4 matrices is this sum over row i of the first matrix
    and column j of the second. *)
Abbreviation sum_of_products a0 b0 a1 b1 a2 b2 a3 b3 :=
  (fadd (fadd (fadd (fmul a0 b0) (fmul a1 b1)) (fmul a2 b2)) (fmul a3 b3)).

(** ** The geometry libraries *)

(** The numerical kernels the program calls, as functions of the values of
    their arguments.  Whether a call updates its receiver or returns a new
    object is part of the program model further down, not of the provider. *)
Class GeometryProvider `{Scalar} := {
  (** [open3d.registration.Feature] *)
  Feature : Type;
  (** [open3d.geometry.TriangleMesh] *)
  TriangleMesh : Type;
  (** [open3d.geometry.OrientedBoundingBox], without its colour *)
  OrientedBoundingBox : Type;
  (** [PointCloud.transform(m)]: the points and normals after the transform *)
  transform_cloud : mat4 → PointCloud → PointCloud;
  (** [PointCloud.crop(box)]: the cloud of the points within the box *)
  crop_cloud : OrientedBoundingBox → PointCloud → PointCloud;
  (** [PointCloud.voxel_down_sample(voxel_size)] *)
  voxel_down_sample_of : F → PointCloud → result PointCloud;
  (** [PointCloud.estimate_normals(search_param)]: the cloud with its normals *)
  estimate_normals_of : KDTreeSearchParamHybrid → PointCloud → result PointCloud;
  (** [open3d.registration.compute_fpfh_feature(input, search_param)] *)
  compute_fpfh_feature_of : PointCloud → KDTreeSearchParamHybrid → result Feature;
  (** [open3d.registration.registration_fast_based_on_feature_matching] *)
  registration_fast_based_on_feature_matching_of :
    PointCloud → PointCloud → Feature → Feature → FastGlobalRegistrationOption →
    result RegistrationResult;
  (** [open3d.registration.registration_icp(source, target, max_distance, init, method)] *)
  registration_icp_of :
    PointCloud → PointCloud → F → mat4 → TransformationEstimation →
    result RegistrationResult;
  (** [OrientedBoundingBox.create_from_points(points)] *)
  create_from_points_of : list vec3 → result OrientedBoundingBox;
  (** [TriangleMesh.create_coordinate_frame(size)] *)
  create_coordinate_frame_of : F → TriangleMesh;
  (** [TriangleMesh.transform(m)] *)
  transform_mesh : mat4 → TriangleMesh → TriangleMesh;
  (** [np.linalg.inv] *)
  linalg_inv : mat4 → result mat4;
  (** [quaternion.from_rotation_matrix] followed by [as_float_array]: w, x, y, z *)
  from_rotation_matrix : mat3 → result vec4;
}.

(** Addresses of objects. *)
Abbreviation loc := nat.

Section Program.
Context `{GeometryProvider}.

(** ** The Python heap *)


Inductive obj :=
  | OCloud (c : PointCloud)
  | OMesh (m : TriangleMesh)
  | OArray (a : mat4)
  | OFeature (f : Feature)
  | OBox (b : OrientedBoundingBox) (color : vec3)
  | OPose (p : PoseStamped).

(** What the process shows to the outside: lines printed and windows drawn
    (with the geometries as they were when drawn). *)
Inductive event :=
  | Printed (line : string)
  | Drawn (geometries : list obj) (window_name : string) (width height : nat).

(** The objects by address, the next unused address, and the output. *)
Record world := { heap : gmap loc obj; next : loc; out : list event }.

(** A statement: from a world to a value or a raised exception, and the world
    it leaves (an exception does not undo the updates made before it). *)
Definition M (A : Type) : Type := world → result A * world.

#[global] Instance M_ret : MRet M := λ A a w, (Ok a, w).
#[global] Instance M_bind : MBind M := λ A B k m w,
  match m w with
  | (Ok a, w') => k a w'
  | (Err e, w') => (Err e, w')
  end.
Definition raise {A} (e : PyErr) : M A := λ w, (Err e, w).
(** The outcome of a library kernel, raised if it is an exception. *)
Definition lift {A} (r : result A) : M A := λ w, (r, w).

Definition AttributeError (msg : string) : PyErr :=
  {| exn_class := "AttributeError"; exn_msg := msg |}.
Definition ReferenceError : PyErr :=
  {| exn_class := "ReferenceError"; exn_msg := "no such object" |}.

Definition alloc (o : obj) : M loc :=
  λ w, (Ok (next w), {| heap := <[next w := o]> (heap w); next := S (next w); out := out w |}).
Definition get (l : loc) : M obj :=
  λ w, match heap w !! l with
       | Some o => (Ok o, w)
       | None => (Err ReferenceError, w)
       end.
(** Overwriting the object at [l]: an in-place update through a reference. *)
Definition put (l : loc) (o : obj) : M unit :=
  λ w, match heap w !! l with
       | Some _ => (Ok tt, {| heap := <[l := o]> (heap w); next := next w; out := out w |})
       | None => (Err ReferenceError, w)
       end.
Definition emit (e : event) : M unit :=
  λ w, (Ok tt, {| heap := heap w; next := next w; out := out w ++ [e] |}).

Definition get_cloud (l : loc) : M PointCloud :=
  o ← get l ; match o with OCloud c => mret c | _ => raise (AttributeError "PointCloud") end.
Definition get_array (l : loc) : M mat4 :=
  o ← get l ; match o with OArray a => mret a | _ => raise (AttributeError "ndarray") end.
Definition get_feature (l : loc) : M Feature :=
  o ← get l ; match o with OFeature f => mret f | _ => raise (AttributeError "Feature") end.
Definition get_box (l : loc) : M OrientedBoundingBox :=
  o ← get l; match o with OBox b _ => mret b | _ => raise (AttributeError "OrientedBoundingBox") end.
Definition get_pose (l : loc) : M PoseStamped :=
  o ← get l ; match o with OPose p => mret p | _ => raise (AttributeError "PoseStamped") end.

(** [copy.deepcopy]: a new object with the same contents. *)
Definition dcp (l : loc) : M loc := o ← get l ; alloc o.

(** [print] *)
Definition print (line : string) : M unit := emit (Printed line).


(** ** Library calls as statements *)

(** [pcd.paint_uniform_color(color)]: one colour per point, in place. *)
Definition paint (color : vec3) (c : PointCloud) : PointCloud :=
  {| points := points c; normals := normals c; colors := (λ _, color) <$> points c |}.
Definition paint_uniform_color (l : loc) (color : vec3) : M unit :=
  c ← get_cloud l; put l (OCloud (paint color c)).

(** [geometry.transform(m)]: in place, on a cloud or on a mesh. *)
Definition transform (l : loc) (m : mat4) : M unit :=
  o ← get l;
  match o with
  | OCloud c => put l (OCloud (transform_cloud m c))
  | OMesh t => put l (OMesh (transform_mesh m t))
  | _ => raise (AttributeError "transform")
  end.

(** [pcd.crop(bounding_box)]: the cropped cloud is a new object, which the
    call returns; the receiver keeps all its points. *)
Definition crop (l box : loc) : M loc :=
  c ← get_cloud l; b ← get_box box; alloc (OCloud (crop_cloud b c)).

(** [box.color = color] *)
Definition set_color (l : loc) (color : vec3) : M unit :=
  b ← get_box l; put l (OBox b color).

(** [pcd.voxel_down_sample(voxel_size)]: a new cloud. *)
Definition voxel_down_sample (l : loc) (voxel_size : F) : M loc :=
  c ← get_cloud l; d ← lift (voxel_down_sample_of voxel_size c); alloc (OCloud d).

(** [pcd.estimate_normals(search_param=...)]: in place. *)
Definition estimate_normals (l : loc) (search_param : KDTreeSearchParamHybrid) : M unit :=
  c ← get_cloud l; d ← lift (estimate_normals_of search_param c); put l (OCloud d).

(** [o3d.registration.compute_fpfh_feature(input=..., search_param=...)]: a new feature. *)
Definition compute_fpfh_feature (input : loc) (search_param : KDTreeSearchParamHybrid) : M loc :=
  c ← get_cloud input; f ← lift (compute_fpfh_feature_of c search_param); alloc (OFeature f).

Definition registration_fast_based_on_feature_matching
    (source target source_feature target_feature : loc)
    (option : FastGlobalRegistrationOption) : M RegistrationResult :=
  s ← get_cloud source; t ← get_cloud target;
  sf ← get_feature source_feature; tf ← get_feature target_feature;
  lift (registration_fast_based_on_feature_matching_of s t sf tf option).

Definition registration_icp (source target : loc) (max_correspondence_distance : F)
    (init : mat4) (estimation_method : TransformationEstimation) : M RegistrationResult :=
  s ← get_cloud source; t ← get_cloud target;
  lift (registration_icp_of s t max_correspondence_distance init estimation_method).

(** [o3d.geometry.TriangleMesh.create_coordinate_frame(size=...)] *)
Definition create_coordinate_frame (size : F) : M loc :=
  alloc (OMesh (create_coordinate_frame_of size)).

Fixpoint get_all (ls : list loc) : M (list obj) :=
  match ls with
  | [] => mret []
  | l :: ls => o ← get l; os ← get_all ls; mret (o :: os)
  end.

(** [o3d.visualization.draw_geometries(geometries, window_name=, width=, height=)] *)
Definition draw_geometries (geometries : list loc) (window_name : string)
    (width height : nat) : M unit :=
  os ← get_all geometries; emit (Drawn os window_name width height).

(** Attribute assignment on a message, [pose.pose.position.x = v] and the like. *)
Definition set_attr (l : loc) (f : PoseStamped → PoseStamped) : M unit :=
  p ← get_pose l; put l (OPose (f p)).

Definition with_position (f : Point → Point) (p : PoseStamped) : PoseStamped :=
  {| header := header p;
     pose := {| position := f (position (pose p)); orientation := orientation (pose p) |} |}.
Definition with_orientation (f : Quaternion → Quaternion) (p : PoseStamped) : PoseStamped :=
  {| header := header p;
     pose := {| position := position (pose p); orientation := f (orientation (pose p)) |} |}.
Definition set_px (v : F) (a : Point) : Point := {| px := v; py := py a; pz := pz a |}.
Definition set_py (v : F) (a : Point) : Point := {| px := px a; py := v; pz := pz a |}.
Definition set_pz (v : F) (a : Point) : Point := {| px := px a; py := py a; pz := v |}.
Definition set_qw (v : F) (q : Quaternion) : Quaternion :=
  {| qx := qx q; qy := qy q; qz := qz q; qw := v |}.
Definition set_qx (v : F) (q : Quaternion) : Quaternion :=
  {| qx := v; qy := qy q; qz := qz q; qw := qw q |}.
Definition set_qy (v : F) (q : Quaternion) : Quaternion :=
  {| qx := qx q; qy := v; qz := qz q; qw := qw q |}.
Definition set_qz (v : F) (q : Quaternion) : Quaternion :=
  {| qx := qx q; qy := qy q; qz := v; qw := qw q |}.

(** ** The module *)

(** Default registration parameters, in metres (lines 28-33). *)
Definition VOXEL_SIZE : F := flit (5 # 1000).
Definition RADIUS_NORMAL : F := flit (5 # 1000).
Definition RADIUS_FEATURE : F := flit (3 # 100).
Definition GLOBAL_DISTANCE_THRESHOLD : F := flit (2 # 10).
Definition ICP_REFINE_DISTANCE_THRESHOLD : F := flit (2 # 1000).

(** Lines 36-42. *)
Definition preprocess_point_cloud (pcd : loc) (voxel_size radius_normal radius_feature : F)
    : M (loc * loc) :=
  pcd_down ← voxel_down_sample pcd voxel_size;
  estimate_normals pcd_down {| radius := radius_normal; max_nn := 100 |};;
  pcd_fpfh ← compute_fpfh_feature pcd_down {| radius := radius_feature; max_nn := 200 |};
  mret (pcd_down, pcd_fpfh).

(** Lines 45-55. *)
Definition execute_fast_global_registration
    (source_down target_down source_fpfh target_fpfh : loc) (distance_threshold : F)
    : M RegistrationResult :=
  print "[INFO] Fast global registration with fpfh features";;
  result ← registration_fast_based_on_feature_matching
    source_down target_down source_fpfh target_fpfh
    {| maximum_correspondence_distance := distance_threshold |};
  mret result.

(** Lines 58-64. *)
Definition refine_registration (source target : loc) (previous_transformation : mat4)
    (distance_threshold : F) : M RegistrationResult :=
  print "[INFO] Point-to-plane ICP registration";;
  result ← registration_icp source target distance_threshold previous_transformation
    TransformationEstimationPointToPlane;
  mret result.

(** The files the module loads when it is imported. *)
Record Files := {
  transform_base_to_cam_fine_tuned_npy : mat4;
  transform_cam_to_base_fine_tuned_npy : mat4;
  transform_base_to_reference_grasp_npy : mat4;
  workspace_bounding_box_array_in_base_npy : list vec3;
  cropped_pcd_reference_in_world_frame_ply : PointCloud;
}.

(** The module's global names and the objects they are bound to.  No
    function of the module rebinds a global name. *)
Record Globals := {
  transform_base_to_cam_hand_calibrated : loc;
  transform_cam_to_base_hand_calibrated : loc;
  transform_base_to_reference_grasp : loc;
  workspace_bounding_box : loc;
  robot_frame : loc;
  cam_frame : loc;
  target : loc;
  target_down : loc;
  target_fpfh : loc;
  init_transformation_for_global_registration : loc;
  pose_msg : loc;
}.

(** Lines 9-26 and 67-78: what importing the module does. *)
Definition module_init (files : Files) : M Globals :=
  base_to_cam ← alloc (OArray (transform_base_to_cam_fine_tuned_npy files));
  cam_to_base ← alloc (OArray (transform_cam_to_base_fine_tuned_npy files));
  reference_grasp ← alloc (OArray (transform_base_to_reference_grasp_npy files));
  b ← lift (create_from_points_of (workspace_bounding_box_array_in_base_npy files));
  box ← alloc (OBox b (fzero, fzero, fzero));
  set_color box (fzero, fone, fzero);;
  robot ← create_coordinate_frame (flit (2 # 10));
  cam ← create_coordinate_frame (flit (2 # 10));
  m ← get_array cam_to_base;
  transform cam m;;
  tgt ← alloc (OCloud (cropped_pcd_reference_in_world_frame_ply files));
  m ← get_array cam_to_base;
  transform tgt m;;
  paint_uniform_color tgt (flit (6 # 10), flit (6 # 10), flit (6 # 10));;
  '(tgt_down, tgt_fpfh) ← preprocess_point_cloud tgt VOXEL_SIZE RADIUS_NORMAL RADIUS_FEATURE;
  a ← get_array base_to_cam;
  init ← alloc (OArray a);
  msg ← alloc (OPose PoseStamped_new);
  mret {| transform_base_to_cam_hand_calibrated := base_to_cam;
          transform_cam_to_base_hand_calibrated := cam_to_base;
          transform_base_to_reference_grasp := reference_grasp;
          workspace_bounding_box := box;
          robot_frame := robot;
          cam_frame := cam;
          target := tgt;
          target_down := tgt_down;
          target_fpfh := tgt_fpfh;
          init_transformation_for_global_registration := init;
          pose_msg := msg |}.

(** ** [get_target_grasp_pose] *)

(** Lines 82-88: the two copies of the source cloud in the robot frame, and
    the crop of the second one. *)
Definition prepare_source (g : Globals) (source_pcd : loc) : M (loc * loc) :=
  source_pcd_original ← dcp source_pcd;
  paint_uniform_color source_pcd_original (fzero, fzero, fone);;
  m ← get_array (transform_cam_to_base_hand_calibrated g);
  transform source_pcd_original m;;
  source_pcd_to_process ← dcp source_pcd_original;
  _ ← crop source_pcd_to_process (workspace_bounding_box g);
  mret (source_pcd_original, source_pcd_to_process).

(** Lines 90-100: the move away from the target, the features, the global
    registration, its refinement, and the transformation from source to
    target. *)
Definition register_source (g : Globals) (source_pcd_to_process : loc) : M mat4 :=
  m ← get_array (init_transformation_for_global_registration g);
  transform source_pcd_to_process m;;
  '(source_down, source_fpfh) ←
    preprocess_point_cloud source_pcd_to_process VOXEL_SIZE RADIUS_NORMAL RADIUS_FEATURE;
  result_fast ← execute_fast_global_registration
    source_down (target_down g) source_fpfh (target_fpfh g) GLOBAL_DISTANCE_THRESHOLD;
  result_refine ← refine_registration
    source_down (target_down g) (transformation result_fast) ICP_REFINE_DISTANCE_THRESHOLD;
  init ← get_array (init_transformation_for_global_registration g);
  mret (matmul (transformation result_refine) init).

(** Lines 102-124: the grasp transform, its display, and the message. *)
Definition compose_grasp_pose (g : Globals) (source_pcd_original : loc)
    (transform_source_to_target : mat4) : M loc :=
  new_grasp_frame ← create_coordinate_frame (flit (2 # 10));
  transform_target_to_source ← lift (linalg_inv transform_source_to_target);
  reference_grasp ← get_array (transform_base_to_reference_grasp g);
  let transform_target_grasp := matmul transform_target_to_source reference_grasp in
  transform new_grasp_frame transform_target_grasp;;
  print "[INFO] Visualizing the found grasping pose";;
  draw_geometries [robot_frame g; new_grasp_frame; source_pcd_original; target g]
    "Grasping pose proposal" 1200 960;;
  rotation_quat ← lift (from_rotation_matrix (rotation_block transform_target_grasp));
  let '(q0, q1, q2, q3) := rotation_quat in
  let '(t0, t1, t2) := translation_column transform_target_grasp in
  pose ← dcp (pose_msg g);
  set_attr pose (with_position (set_px t0));;
  set_attr pose (with_position (set_py t1));;
  set_attr pose (with_position (set_pz t2));;
  set_attr pose (with_orientation (set_qw q0));;
  set_attr pose (with_orientation (set_qx q1));;
  set_attr pose (with_orientation (set_qy q2));;
  set_attr pose (with_orientation (set_qz q3));;
  mret pose.

(** Lines 81-124. *)
Definition get_target_grasp_pose (g : Globals) (source_pcd : loc) : M loc :=
  '(source_pcd_original, source_pcd_to_process) ← prepare_source g source_pcd;
  transform_source_to_target ← register_source g source_pcd_to_process;
  compose_grasp_pose g source_pcd_original transform_source_to_target.

End Program.

(** * Specification vocabulary *)

Section Vocabulary.
Context `{GeometryProvider}.

(** Every object of the heap was created through [alloc]. *)
Definition wf_world (w : world) : Prop :=
  ∀ l o, heap w !! l = Some o → l < next w.

(** From [w] to [w'] no object at an address below [n] changed. *)
Definition frame (n : nat) (w w' : world) : Prop :=
  n ≤ next w' ∧ (∀ l, l < n → heap w' !! l = heap w !! l) ∧ (wf_world w → wf_world w').

(** Run in a world that has handed out all addresses below [n], the statement
    [m] leaves the objects at those addresses as they are, whether it returns
    or raises; a value it returns satisfies [Q]. *)
Definition writes_fresh {A} (n : nat) (m : M A) (Q : A → Prop) : Prop :=
  ∀ w, n ≤ next w → frame n w (m w).2 ∧ ∀ a, (m w).1 = Ok a → Q a.

(** The object [o] is at address [l]. *)
Definition holds (w : world) (l : loc) (o : obj) : Prop :=
  heap w !! l = Some o ∧ l < next w.

(** The values of the module's globals. *)
Record GlobalValues := {
  base_to_cam_value : mat4;
  cam_to_base_value : mat4;
  reference_grasp_value : mat4;
  box_value : OrientedBoundingBox;
  box_color_value : vec3;
  robot_frame_value : TriangleMesh;
  cam_frame_value : TriangleMesh;
  target_value : PointCloud;
  target_down_value : PointCloud;
  target_fpfh_value : Feature;
  init_transformation_value : mat4;
  pose_msg_value : PoseStamped;
}.

(** The globals [g] are bound to objects with the values [V]. *)
Record installed (g : Globals) (V : GlobalValues) (w : world) : Prop := {
  inst_base_to_cam :
    holds w (transform_base_to_cam_hand_calibrated g) (OArray (base_to_cam_value V));
  inst_cam_to_base :
    holds w (transform_cam_to_base_hand_calibrated g) (OArray (cam_to_base_value V));
  inst_reference_grasp :
    holds w (transform_base_to_reference_grasp g) (OArray (reference_grasp_value V));
  inst_box :
    holds w (workspace_bounding_box g) (OBox (box_value V) (box_color_value V));
  inst_robot_frame : holds w (robot_frame g) (OMesh (robot_frame_value V));
  inst_cam_frame : holds w (cam_frame g) (OMesh (cam_frame_value V));
  inst_target : holds w (target g) (OCloud (target_value V));
  inst_target_down : holds w (target_down g) (OCloud (target_down_value V));
  inst_target_fpfh : holds w (target_fpfh g) (OFeature (target_fpfh_value V));
  inst_init :
    holds w (init_transformation_for_global_registration g)
      (OArray (init_transformation_value V));
  inst_pose_msg : holds w (pose_msg g) (OPose (pose_msg_value V));
}.

Definition blue : vec3 := (fzero, fzero, fone).
Definition grey : vec3 := (flit (6 # 10), flit (6 # 10), flit (6 # 10)).
Definition normal_search : KDTreeSearchParamHybrid :=
  {| radius := RADIUS_NORMAL; max_nn := 100 |}.
Definition feature_search : KDTreeSearchParamHybrid :=
  {| radius := RADIUS_FEATURE; max_nn := 200 |}.

(** The target cloud in the robot frame (lines 68-71). *)
Definition target_in_base (files : Files) : PointCloud :=
  paint grey (transform_cloud (transform_cam_to_base_fine_tuned_npy files)
                (cropped_pcd_reference_in_world_frame_ply files)).

(** What importing the module binds the globals to, given the box and the
    target's downsampled cloud and features that the library computed. *)
Definition initial_values (files : Files) (b : OrientedBoundingBox)
    (tdown : PointCloud) (tfpfh : Feature) : GlobalValues :=
  {| base_to_cam_value := transform_base_to_cam_fine_tuned_npy files;
     cam_to_base_value := transform_cam_to_base_fine_tuned_npy files;
     reference_grasp_value := transform_base_to_reference_grasp_npy files;
     box_value := b;
     box_color_value := (fzero, fone, fzero);
     robot_frame_value := create_coordinate_frame_of (flit (2 # 10));
     cam_frame_value :=
       transform_mesh (transform_cam_to_base_fine_tuned_npy files)
         (create_coordinate_frame_of (flit (2 # 10)));
     target_value := target_in_base files;
     target_down_value := tdown;
     target_fpfh_value := tfpfh;
     init_transformation_value := transform_base_to_cam_fine_tuned_npy files;
     pose_msg_value := PoseStamped_new |}.

(** The library computed [b], [tdown] and [tfpfh] from the files. *)
Definition computed_at_import (files : Files) (b : OrientedBoundingBox)
    (tdown : PointCloud) (tfpfh : Feature) : Prop :=
  create_from_points_of (workspace_bounding_box_array_in_base_npy files) = Ok b ∧
  ∃ d, voxel_down_sample_of VOXEL_SIZE (target_in_base files) = Ok d ∧
       estimate_normals_of normal_search d = Ok tdown ∧
       compute_fpfh_feature_of tdown feature_search = Ok tfpfh.

(** The worlds the process goes through once the module is imported: the
    caller creates objects (the captured clouds) and calls
    [get_target_grasp_pose], in any order, any number of times. *)
Inductive running (files : Files) (g : Globals) : world → Prop :=
  | running_import w0 w :
      wf_world w0 → module_init files w0 = (Ok g, w) → running files g w
  | running_new w o :
      running files g w → running files g (alloc o w).2
  | running_call w source_pcd :
      running files g w → running files g (get_target_grasp_pose g source_pcd w).2.

(** The message with the header of [pm], the translation column of [m] as
    position and the components w, x, y, z of [q] as orientation. *)
Definition pose_of (pm : PoseStamped) (m : mat4) (q : vec4) : PoseStamped :=
  let '(q0, q1, q2, q3) := q in
  let '(t0, t1, t2) := translation_column m in
  {| header := header pm;
     pose := {| position := {| px := t0; py := t1; pz := t2 |};
                orientation := {| qx := q1; qy := q2; qz := q3; qw := q0 |} |} |}.

(** What [compose_grasp_pose] shows: the line it prints and the window it draws. *)
Definition shown (V : GlobalValues) (o : obj) (grasp : mat4) : list event :=
  [ Printed "[INFO] Visualizing the found grasping pose";
    Drawn [ OMesh (robot_frame_value V);
            OMesh (transform_mesh grasp (create_coordinate_frame_of (flit (2 # 10))));
            o;
            OCloud (target_value V) ]
      "Grasping pose proposal" 1200 960 ].

(** The scalar [x] behaves towards one and towards the zeros as a number
    does: one times [x] is [x], zero times [x] is a zero, and a zero added to
    [x] on either side gives [x].  Exact numbers have the one zero 0.  Floats
    have two, 0.0 and -0.0 (the product of 0.0 and a negative number is
    -0.0), and a float is ordinary when it is finite and not -0.0. *)
Definition ordinary (zero : F → Prop) (x : F) : Prop :=
  fmul fone x = x ∧ zero (fmul fzero x) ∧ ∀ z, zero z → fadd x z = x ∧ fadd z x = x.

(** Sums and products are exact up to [same]: the scalars are a commutative
    semiring for the equality [same], which sums and products respect.
    Rationals in any representation are, with the equality of fractions;
    floats are not, their sums and products are rounded. *)
Record exact_up_to (same : F → F → Prop) : Prop := {
  same_equivalence : Equivalence same;
  fadd_respects : Proper (same ==> same ==> same) fadd;
  fmul_respects : Proper (same ==> same ==> same) fmul;
  same_semi_ring : semi_ring_theory fzero fone fadd fmul same;
}.

(** The exception is of the class named [cls]. *)
Definition raises {A} (cls : string) (r : result A) : Prop :=
  ∃ e, r = Err e ∧ exn_class e = cls.

(** The lines the two registration functions print. *)
Definition fgr_line : event :=
  Printed "[INFO] Fast global registration with fpfh features".
Definition icp_line : event := Printed "[INFO] Point-to-plane ICP registration".

(** The addresses of the globals, in the order the import binds them. *)
Definition addresses (g : Globals) : list loc :=
  [ transform_base_to_cam_hand_calibrated g; transform_cam_to_base_hand_calibrated g;
    transform_base_to_reference_grasp g; workspace_bounding_box g; robot_frame g;
    cam_frame g; target g; target_down g; target_fpfh g;
    init_transformation_for_global_registration g; pose_msg g ].

End Vocabulary.

(** * A provider for sparse scenes *)

(** Exact rationals as scalars, every result in lowest terms, and the
    libraries on scenes whose points are too far apart to have neighbours:
    there a voxel holds one point, a normal is the library's default
    (0, 0, 1), a descriptor is the empty histogram, and registration finds no
    correspondence.  On any other scene the provider raises [NotModelled]. *)

Definition qadd (a b : Q) : Q := Qred (a + b).
Definition qmul (a b : Q) : Q := Qred (a * b).
Definition qsub (a b : Q) : Q := Qred (a - b).
Definition qdiv (a b : Q) : Q := Qred (a / b).
(** The square root, rounded down to sixteen decimals. *)
Definition qsqrt (a : Q) : Q :=
  Qred (Z.sqrt (Qnum a * 10 ^ 32 / Z.pos (Qden a)) # 10 ^ 16).

Definition rational : Scalar :=
  {| F := Q; fadd := qadd; fmul := qmul; flit := Qred |}.

(** Integers with the two zeros of floating-point arithmetic, 0 and -0: a
    zero product has the sign of a product, a sum of two zeros is -0 when
    both are and 0 otherwise, and a sum that cancels is 0.  Nothing is
    rounded and nothing overflows. *)
Inductive signed :=
  | NegZero
  | Int (z : Z).

Definition negative (a : signed) : bool :=
  match a with NegZero => true | Int z => Z.ltb z 0 end.
Definition is_zero (a : signed) : bool :=
  match a with NegZero => true | Int z => Z.eqb z 0 end.
Definition value (a : signed) : Z :=
  match a with NegZero => 0%Z | Int z => z end.

Definition signed_mul (a b : signed) : signed :=
  if is_zero a || is_zero b
  then (if xorb (negative a) (negative b) then NegZero else Int 0)
  else Int (value a * value b).
Definition signed_add (a b : signed) : signed :=
  match a, b with
  | NegZero, NegZero => NegZero
  | _, _ => Int (value a + value b)
  end.

Definition signed_integers : Scalar :=
  {| F := signed; fadd := signed_add; fmul := signed_mul; flit := λ q, Int (Qfloor q) |}.

(** The two zeros. *)
Definition signed_zero (a : signed) : Prop := a = Int 0 ∨ a = NegZero.

Definition NotModelled : PyErr :=
  {| exn_class := "NotModelled"; exn_msg := "the scene is not sparse" |}.
Definition RuntimeError (msg : string) : PyErr :=
  {| exn_class := "RuntimeError"; exn_msg := msg |}.
Definition LinAlgError : PyErr :=
  {| exn_class := "LinAlgError"; exn_msg := "Singular matrix" |}.

Section SparseProvider.
#[local] Existing Instance rational.

Definition sub3 (a b : vec3) : vec3 :=
  let '(ax, ay, az) := a in let '(bx, by_, bz) := b in
  (qsub ax bx, qsub ay by_, qsub az bz).
Definition add3 (a b : vec3) : vec3 :=
  let '(ax, ay, az) := a in let '(bx, by_, bz) := b in
  (qadd ax bx, qadd ay by_, qadd az bz).
Definition dot3 (a b : vec3) : Q :=
  let '(ax, ay, az) := a in let '(bx, by_, bz) := b in
  qadd (qadd (qmul ax bx) (qmul ay by_)) (qmul az bz).
Definition scale3 (k : Q) (a : vec3) : vec3 :=
  let '(ax, ay, az) := a in (qmul k ax, qmul k ay, qmul k az).
Definition dist2 (a b : vec3) : Q := dot3 (sub3 a b) (sub3 a b).
Definition min3 (a b : vec3) : vec3 :=
  let '(ax, ay, az) := a in let '(bx, by_, bz) := b in
  (Qmin ax bx, Qmin ay by_, Qmin az bz).
Definition max3 (a b : vec3) : vec3 :=
  let '(ax, ay, az) := a in let '(bx, by_, bz) := b in
  (Qmax ax bx, Qmax ay by_, Qmax az bz).
Definition zero3 : vec3 := (0%Q, 0%Q, 0%Q).

(** [PointCloud.transform]: points as homogeneous points, normals as
    directions. *)
Definition transform_point (m : mat4) (p : vec3) : vec3 :=
  let '(x, y, z) := p in
  let '(a, b, c, k) := mat_apply m (x, y, z, fone) in
  (qdiv a k, qdiv b k, qdiv c k).
Definition transform_normal (m : mat4) (n : vec3) : vec3 :=
  let '(x, y, z) := n in
  let '(a, b, c, _) := mat_apply m (x, y, z, fzero) in (a, b, c).
Definition sparse_transform_cloud (m : mat4) (c : PointCloud) : PointCloud :=
  {| points := transform_point m <$> points c;
     normals := transform_normal m <$> normals c;
     colors := colors c |}.

(** An oriented box: centre, the three axes, and the extent along each. *)
Record Box := { center : vec3; axes : mat3; extent : vec3 }.

(** The box's own membership test: the boundary belongs to the box. *)
Definition within (b : Box) (p : vec3) : bool :=
  let d := sub3 p (center b) in
  let '(dx, dy, dz) := axes b in
  let '(ex, ey, ez) := extent b in
  Qle_bool (Qabs (dot3 d dx)) (qdiv ex 2)
  && Qle_bool (Qabs (dot3 d dy)) (qdiv ey 2)
  && Qle_bool (Qabs (dot3 d dz)) (qdiv ez 2).

Fixpoint select {A} (mask : list bool) (l : list A) : list A :=
  match mask, l with
  | keep :: mask, x :: l => if keep then x :: select mask l else select mask l
  | _, _ => []
  end.

Definition sparse_crop_cloud (b : Box) (c : PointCloud) : PointCloud :=
  let mask := within b <$> points c in
  {| points := select mask (points c);
     normals := select mask (normals c);
     colors := select mask (colors c) |}.

(** The box of a set of points, for points that are the corners of a box
    parallel to the axes. *)
Definition sparse_create_from_points (pts : list vec3) : result Box :=
  match pts with
  | [] => Err (RuntimeError "no points")
  | p :: ps =>
      let lo := foldr min3 p ps in
      let hi := foldr max3 p ps in
      Ok {| center := scale3 (1 # 2) (add3 lo hi);
            axes := ((1%Q, 0%Q, 0%Q), (0%Q, 1%Q, 0%Q), (0%Q, 0%Q, 1%Q));
            extent := sub3 hi lo |}
  end.

Definition voxel_index (v : Q) (lo p : vec3) : Z * Z * Z :=
  let '(x, y, z) := sub3 p lo in
  (Qfloor (x / v), Qfloor (y / v), Qfloor (z / v)).

Definition same_voxel (a b : Z * Z * Z) : bool :=
  let '(ax, ay, az) := a in let '(bx, by_, bz) := b in
  Z.eqb ax bx && Z.eqb ay by_ && Z.eqb az bz.

Fixpoint distinct (l : list (Z * Z * Z)) : bool :=
  match l with
  | [] => true
  | x :: l => negb (existsb (same_voxel x) l) && distinct l
  end.

Definition sparse_voxel_down_sample (v : Q) (c : PointCloud) : result PointCloud :=
  if Qle_bool v 0 then Err (RuntimeError "[VoxelDownSample] voxel_size <= 0.")
  else
    let lo := sub3 (foldr min3 (hd zero3 (points c)) (points c)) (scale3 (1 # 2) (v, v, v)) in
    if distinct (voxel_index v lo <$> points c) then Ok c else Err NotModelled.

(** The number of points of [c] within distance [r] of [p], [p] included. *)
Definition neighbours (r : Q) (c : PointCloud) (p : vec3) : nat :=
  length (filter (λ q, Qle_bool (dist2 p q) (qmul r r) = true) (points c)).

Definition sparse_estimate_normals (s : KDTreeSearchParamHybrid) (c : PointCloud)
    : result PointCloud :=
  if forallb (λ p, Nat.ltb (Nat.min (neighbours (radius s) c p) (max_nn s)) 3) (points c)
  then Ok {| points := points c;
             normals := (λ _, (0%Q, 0%Q, 1%Q)) <$> points c;
             colors := colors c |}
  else Err NotModelled.

Definition has_normals (c : PointCloud) : bool :=
  Nat.ltb 0 (length (points c)) && Nat.eqb (length (normals c)) (length (points c)).

Definition sparse_compute_fpfh_feature (c : PointCloud) (s : KDTreeSearchParamHybrid)
    : result (list (list Q)) :=
  if negb (has_normals c)
  then Err (RuntimeError "[ComputeFPFHFeature] Failed because input point cloud has no normal.")
  else if forallb (λ p, Nat.leb (neighbours (radius s) c p) 1) (points c)
  then Ok ((λ _, replicate 33 0%Q) <$> points c)
  else Err NotModelled.

Definition centroid (c : PointCloud) : vec3 :=
  scale3 (qdiv 1 (inject_Z (Z.of_nat (length (points c))))) (foldr add3 zero3 (points c)).

Definition translation (t : vec3) : mat4 :=
  let '(x, y, z) := t in
  ((1%Q, 0%Q, 0%Q, x), (0%Q, 1%Q, 0%Q, y), (0%Q, 0%Q, 1%Q, z), (0%Q, 0%Q, 0%Q, 1%Q)).

(** The target point nearest to [p], with its index and squared distance. *)
Fixpoint nearest (p : vec3) (ts : list vec3) (j : nat) : option (nat * Q) :=
  match ts with
  | [] => None
  | t :: ts =>
      match nearest p ts (S j) with
      | Some (k, d) => if Qle_bool (dist2 p t) d then Some (j, dist2 p t) else Some (k, d)
      | None => Some (j, dist2 p t)
      end
  end.

(** The source points that have a target point within [dmax], each with its
    nearest target point and squared distance. *)
Fixpoint inliers (ps ts : list vec3) (dmax : Q) (i : nat) : list (nat * nat * Q) :=
  match ps with
  | [] => []
  | p :: ps =>
      match nearest p ts 0 with
      | Some (j, d) =>
          if Qle_bool d (qmul dmax dmax) then (i, j, d) :: inliers ps ts dmax (S i)
          else inliers ps ts dmax (S i)
      | None => inliers ps ts dmax (S i)
      end
  end.

(** [EvaluateRegistration]: fitness and root mean square error over the inliers. *)
Definition evaluate (s t : PointCloud) (dmax : Q) (m : mat4) : RegistrationResult :=
  let cs := inliers (transform_point m <$> points s) (points t) dmax 0 in
  let n := inject_Z (Z.of_nat (length cs)) in
  {| transformation := m;
     fitness := qdiv n (inject_Z (Z.of_nat (length (points s))));
     inlier_rmse := qsqrt (qdiv (foldr (λ c acc, qadd c.2 acc) 0%Q cs) n);
     correspondence_set := (λ c, c.1) <$> cs |}.

(** With fewer than ten correspondences the library's optimisation is the
    identity between the centred clouds: the result moves the centroid of the
    source onto the centroid of the target. *)
Definition sparse_registration_fast (s t : PointCloud) (sf tf : list (list Q))
    (option : FastGlobalRegistrationOption) : result RegistrationResult :=
  if Nat.eqb (length (points s)) 0 || Nat.eqb (length (points t)) 0
     || Nat.leb 10 (length (points s) + length (points t))
  then Err NotModelled
  else Ok (evaluate s t (maximum_correspondence_distance option)
             (translation (sub3 (centroid t) (centroid s)))).

(** Without a correspondence within the distance the refinement has nothing
    to minimise and returns the initial transformation. *)
Definition sparse_registration_icp (s t : PointCloud) (dmax : Q) (init : mat4)
    (method : TransformationEstimation) : result RegistrationResult :=
  match inliers (transform_point init <$> points s) (points t) dmax 0 with
  | [] => Ok (evaluate s t dmax init)
  | _ => Err NotModelled
  end.

(** The inverse of an affine matrix (bottom row 0 0 0 1), by the adjugate of
    its 3x3 block. *)
Definition sparse_linalg_inv (m : mat4) : result mat4 :=
  let '((a, b, c, tx), (d, e, f, ty), (g, h, i, tz), (w0, w1, w2, w3)) := m in
  if negb (Qeq_bool w0 0 && Qeq_bool w1 0 && Qeq_bool w2 0 && Qeq_bool w3 1)
  then Err NotModelled
  else
    let det := Qred (a * (e * i - f * h) - b * (d * i - f * g) + c * (d * h - e * g)) in
    if Qeq_bool det 0 then Err LinAlgError
    else
      let r00 := qdiv (e * i - f * h) det in
      let r01 := qdiv (c * h - b * i) det in
      let r02 := qdiv (b * f - c * e) det in
      let r10 := qdiv (f * g - d * i) det in
      let r11 := qdiv (a * i - c * g) det in
      let r12 := qdiv (c * d - a * f) det in
      let r20 := qdiv (d * h - e * g) det in
      let r21 := qdiv (b * g - a * h) det in
      let r22 := qdiv (a * e - b * d) det in
      Ok ((r00, r01, r02, Qred (- (r00 * tx + r01 * ty + r02 * tz))),
          (r10, r11, r12, Qred (- (r10 * tx + r11 * ty + r12 * tz))),
          (r20, r21, r22, Qred (- (r20 * tx + r21 * ty + r22 * tz))),
          (0%Q, 0%Q, 0%Q, 1%Q)).

(** The first index of the largest of four numbers, as [np.argmax]. *)
Definition argmax4 (d0 d1 d2 d3 : Q) : nat :=
  if Qle_bool d1 d0 && Qle_bool d2 d0 && Qle_bool d3 d0 then 0
  else if Qle_bool d2 d1 && Qle_bool d3 d1 then 1
  else if Qle_bool d3 d2 then 2
  else 3.

(** The quaternion of a rotation matrix by the largest of the three diagonal
    entries and the trace (Markley's method), divided by its norm. *)
Definition sparse_from_rotation_matrix (r : mat3) : result vec4 :=
  let '((r00, r01, r02), (r10, r11, r12), (r20, r21, r22)) := r in
  let '(q0, q1, q2, q3) :=
    match argmax4 r00 r11 r22 (r00 + r11 + r22) with
    | 0 => (r21 - r12, 1 + r00 - r11 - r22, r01 + r10, r02 + r20)%Q
    | 1 => (r02 - r20, r10 + r01, 1 - r00 + r11 - r22, r12 + r21)%Q
    | 2 => (r10 - r01, r20 + r02, r21 + r12, 1 - r00 - r11 + r22)%Q
    | _ => (1 + r00 + r11 + r22, r21 - r12, r02 - r20, r10 - r01)%Q
    end in
  let norm := qsqrt (q0 * q0 + q1 * q1 + q2 * q2 + q3 * q3)%Q in
  Ok (qdiv q0 norm, qdiv q1 norm, qdiv q2 norm, qdiv q3 norm).

(** A coordinate frame mesh, by its size and its pose. *)
Definition sparse : GeometryProvider :=
  {| Feature := list (list Q);
     TriangleMesh := Q * mat4;
     OrientedBoundingBox := Box;
     transform_cloud := sparse_transform_cloud;
     crop_cloud := sparse_crop_cloud;
     voxel_down_sample_of := sparse_voxel_down_sample;
     estimate_normals_of := sparse_estimate_normals;
     compute_fpfh_feature_of := sparse_compute_fpfh_feature;
     registration_fast_based_on_feature_matching_of := sparse_registration_fast;
     registration_icp_of := sparse_registration_icp;
     create_from_points_of := sparse_create_from_points;
     create_coordinate_frame_of := λ size, (size, identity4);
     transform_mesh := λ m t, (t.1, matmul m t.2);
     linalg_inv := sparse_linalg_inv;
     from_rotation_matrix := sparse_from_rotation_matrix |}.

End SparseProvider.

(** ** A scene *)

(** The camera looks along the robot's y axis from one metre along x; the
    workspace is the cube of side two around the robot's origin; the reference
    scan has two points; the reference grasp is turned about x by the
    rotation whose quaternion is (-3/5, 4/5, 0, 0). *)

Section Scene.
#[local] Existing Instance rational.
#[local] Existing Instance sparse.

Definition scene_files : Files :=
  {| transform_base_to_cam_fine_tuned_npy :=
       ((0, 1, 0, 0), (-1, 0, 0, 1), (0, 0, 1, 0), (0, 0, 0, 1))%Q;
     transform_cam_to_base_fine_tuned_npy :=
       ((0, -1, 0, 1), (1, 0, 0, 0), (0, 0, 1, 0), (0, 0, 0, 1))%Q;
     transform_base_to_reference_grasp_npy :=
       ((1, 0, 0, 1 # 2), (0, -7 # 25, 24 # 25, 0),
        (0, -24 # 25, -7 # 25, 1 # 4), (0, 0, 0, 1))%Q;
     workspace_bounding_box_array_in_base_npy :=
       [(-1, -1, -1); (-1, -1, 1); (-1, 1, -1); (-1, 1, 1);
        (1, -1, -1); (1, -1, 1); (1, 1, -1); (1, 1, 1)]%Q;
     cropped_pcd_reference_in_world_frame_ply :=
       {| points := [(0, 0, 0); (1 # 2, 0, 0)]%Q; normals := []; colors := [] |} |}.

(** A capture with two points, in camera coordinates: in the robot frame the
    first is (1/2, 0, 0), inside the workspace, and the second is (5, 0, 0),
    four metres outside of it. *)
Definition scene_source : PointCloud :=
  {| points := [(0, 1 # 2, 0); (0, -4, 0)]%Q; normals := []; colors := [] |}.

(** A capture with a single point. *)
Definition single_point : PointCloud :=
  {| points := [(0, 0, 0)]%Q; normals := []; colors := [] |}.

Definition empty_world : world := {| heap := ∅; next := 0; out := [] |}.

(** The globals after the import into the empty world. *)
Definition scene_globals : Globals :=
  {| transform_base_to_cam_hand_calibrated := 0;
     transform_cam_to_base_hand_calibrated := 1;
     transform_base_to_reference_grasp := 2;
     workspace_bounding_box := 3;
     robot_frame := 4;
     cam_frame := 5;
     target := 6;
     target_down := 7;
     target_fpfh := 8;
     init_transformation_for_global_registration := 9;
     pose_msg := 10 |}.

Definition imported_world : world := (module_init scene_files empty_world).2.

(** The world in which the caller holds the two captures, at 11 and 12. *)
Definition scene_world : world :=
  (alloc (OCloud single_point) (alloc (OCloud scene_source) imported_world).2).2.

Definition scene_box : Box :=
  {| center := (0, 0, 0)%Q;
     axes := ((1, 0, 0), (0, 1, 0), (0, 0, 1))%Q;
     extent := (2, 2, 2)%Q |}.

(** The rows of the matrix have length one and are orthogonal to each other. *)
Definition orthonormal3 (r : mat3) : bool :=
  let '(a, b, c) := r in
  Qeq_bool (dot3 a a) 1 && Qeq_bool (dot3 b b) 1 && Qeq_bool (dot3 c c) 1
  && Qeq_bool (dot3 a b) 0 && Qeq_bool (dot3 a c) 0 && Qeq_bool (dot3 b c) 0.

(** A transformation that doubles every length. *)
Definition doubling : mat4 :=
  ((2, 0, 0, 0), (0, 2, 0, 0), (0, 0, 2, 0), (0, 0, 0, 1))%Q.

Definition scene_reference : mat4 := transform_base_to_reference_grasp_npy scene_files.

(** The target after the import: in the robot frame, with the default normals. *)
Definition scene_target_down : PointCloud :=
  {| points := [(1, 0, 0); (1, 1 # 2, 0)]%Q;
     normals := [(0, 0, 1); (0, 0, 1)]%Q;
     colors := [(3 # 5, 3 # 5, 3 # 5); (3 # 5, 3 # 5, 3 # 5)]%Q |}.
Definition scene_target_fpfh : list (list Q) := replicate 2 (replicate 33 0%Q).
Definition scene_values : GlobalValues :=
  initial_values scene_files scene_box scene_target_down scene_target_fpfh.

(** The call on the capture with two points, and the pose it returns. *)
Definition scene_call : result loc * world :=
  get_target_grasp_pose scene_globals 11 scene_world.
Definition scene_pose : PoseStamped :=
  {| header := {| seq := 0; stamp := (0, 0); frame_id := "" |};
     pose := {| position := {| px := 3%Q; py := (-1 # 2)%Q; pz := (1 # 4)%Q |};
                orientation :=
                  {| qx := (160000000000000 # 282842712474619)%Q;
                     qy := (160000000000000 # 282842712474619)%Q;
                     qz := (-120000000000000 # 282842712474619)%Q;
                     qw := (-120000000000000 # 282842712474619)%Q |} |} |}.

(** The pose composed from the identity: the reference grasp itself. *)
Definition identity_call : result loc * world :=
  compose_grasp_pose scene_globals 11 identity4 scene_world.
Definition scene_grasp_pose : PoseStamped :=
  {| header := {| seq := 0; stamp := (0, 0); frame_id := "" |};
     pose := {| position := {| px := (1 # 2)%Q; py := 0%Q; pz := (1 # 4)%Q |};
                orientation :=
                  {| qx := (4 # 5)%Q; qy := 0%Q; qz := 0%Q; qw := (-3 # 5)%Q |} |} |}.

(** The pose composed from the transformation that doubles lengths. *)
Definition doubling_call : result loc * world :=
  compose_grasp_pose scene_globals 11 doubling scene_world.
Definition doubled_pose : PoseStamped :=
  {| header := {| seq := 0; stamp := (0, 0); frame_id := "" |};
     pose := {| position := {| px := (1 # 4)%Q; py := 0%Q; pz := (1 # 8)%Q |};
                orientation :=
                  {| qx := (4450000000000000 # 5055937104039171)%Q;
                     qy := 0%Q; qz := 0%Q;
                     qw := (-800000000000000 # 1685312368013057)%Q |} |} |}.

(** The capture with a single point, preprocessed and registered. *)
Definition single_point_down : PointCloud :=
  {| points := [(0, 0, 0)]%Q; normals := [(0, 0, 1)]%Q; colors := [] |}.
Definition single_point_call : result (loc * loc) * world :=
  preprocess_point_cloud 12 VOXEL_SIZE RADIUS_NORMAL RADIUS_FEATURE scene_world.
Definition single_point_registration : result RegistrationResult * world :=
  execute_fast_global_registration 13 7 14 8 GLOBAL_DISTANCE_THRESHOLD single_point_call.2.
Definition centred : RegistrationResult :=
  {| transformation :=
       ((1, 0, 0, 1), (0, 1, 0, 1 # 4), (0, 0, 1, 0), (0, 0, 0, 1))%Q;
     fitness := 0%Q; inlier_rmse := 0%Q; correspondence_set := [] |}.

(** The capture with two points in the robot frame, painted blue. *)
Definition scene_in_base : PointCloud :=
  {| points := [(1 # 2, 0, 0); (5, 0, 0)]%Q; normals := [];
     colors := [(0, 0, 1); (0, 0, 1)]%Q |}.
(** The grasp transform the call on the scene arrives at. *)
Definition scene_grasp_transform : mat4 :=
  ((0, 7 # 25, -24 # 25, 3), (1, 0, 0, -1 # 2),
   (0, -24 # 25, -7 # 25, 1 # 4), (0, 0, 0, 1))%Q.
(** A second call on the same capture, after the first. *)
Definition second_call : result loc * world :=
  get_target_grasp_pose scene_globals 11 scene_call.2.

End Scene.

(** * Properties *)

Section Frame.
Context `{GeometryProvider}.

(** ** Statements that only write to objects they created *)

Lemma frame_refl n w : n ≤ next w → frame n w w.
Proof. by repeat split. Qed.

Lemma frame_trans n w1 w2 w3 : frame n w1 w2 → frame n w2 w3 → frame n w1 w3.
Proof.
  intros (_ & H12 & Hw12) (Hn & H23 & Hw23). repeat split; [done| |auto].
  intros l Hl. by rewrite H23, H12.
Qed.

Lemma fresh_mret {A} n (a : A) (Q : A → Prop) : Q a → writes_fresh n (mret a) Q.
Proof.
  intros Ha w Hw. split; [by apply frame_refl|].
  intros a' [= <-]. done.
Qed.

Lemma fresh_raise {A} n e (Q : A → Prop) : writes_fresh n (raise e) Q.
Proof. intros w Hw. split; [by apply frame_refl | done]. Qed.

Lemma fresh_lift {A} n (r : result A) : writes_fresh n (lift r) (λ _, True).
Proof. intros w Hw. split; [by apply frame_refl | done]. Qed.

Lemma fresh_bind {A B} n (m : M A) (k : A → M B) Q R :
  writes_fresh n m Q → (∀ a, Q a → writes_fresh n (k a) R) →
  writes_fresh n (m ≫= k) R.
Proof.
  intros Hm Hk w Hw. destruct (Hm w Hw) as [Hf HQ].
  unfold mbind, M_bind. destruct (m w) as [[a|e] w1]; cbn in *.
  - destruct (Hk a (HQ a eq_refl) w1 (proj1 Hf)) as [Hf' HR].
    split; [by eapply frame_trans|done].
  - done.
Qed.

Lemma fresh_weaken {A} n (m : M A) (Q Q' : A → Prop) :
  writes_fresh n m Q → (∀ a, Q a → Q' a) → writes_fresh n m Q'.
Proof.
  intros Hm HQ w Hw. destruct (Hm w Hw) as [Hf Ha]. split; [done|]. auto.
Qed.

Lemma fresh_alloc n o : writes_fresh n (alloc o) (λ l, n ≤ l).
Proof.
  intros w Hw. cbn. split; [repeat split; cbn; [lia| |]|].
  - intros l Hl. apply lookup_insert_ne. lia.
  - intros Hwf l o'. destruct (decide (next w = l)) as [<-|Hne].
    + intros _. cbn. lia.
    + cbn. rewrite lookup_insert_ne by done. intros Hl%Hwf. lia.
  - intros a [= <-]. done.
Qed.

Lemma fresh_get n l : writes_fresh n (get l) (λ _, True).
Proof.
  intros w Hw. unfold get. destruct (heap w !! l); (split; [by apply frame_refl|done]).
Qed.

Lemma fresh_put n l o : n ≤ l → writes_fresh n (put l o) (λ _, True).
Proof.
  intros Hl w Hw. unfold put. destruct (heap w !! l) as [o0|] eqn:Hlo; cbn.
  - split; [repeat split; cbn; [lia| |]|done].
    + intros l' Hl'. apply lookup_insert_ne. lia.
    + intros Hwf l' o'. cbn. destruct (decide (l = l')) as [<-|Hne].
      * intros _. by eapply Hwf.
      * rewrite lookup_insert_ne by done. apply Hwf.
  - split; [by apply frame_refl|done].
Qed.

Lemma fresh_emit n e : writes_fresh n (emit e) (λ _, True).
Proof. intros w Hw. cbn. split; [by repeat split|done]. Qed.

(** One step of a proof of [writes_fresh]: a primitive, or the head of a bind. *)
Ltac fresh_prim :=
  first
    [ apply fresh_raise | apply fresh_lift | apply fresh_get | apply fresh_emit
    | apply fresh_alloc | apply fresh_put; lia ].
Ltac fresh_go :=
  repeat first
    [ fresh_prim
    | apply fresh_mret; cbn; first [ done | lia | tauto ]
    | eapply fresh_bind; [ fresh_prim | intros ? ? ]
    | match goal with
      | |- writes_fresh _ (match ?o with _ => _ end) _ => destruct o
      end ].

Lemma fresh_get_cloud n l : writes_fresh n (get_cloud l) (λ _, True).
Proof. unfold get_cloud. fresh_go. Qed.
Lemma fresh_get_array n l : writes_fresh n (get_array l) (λ _, True).
Proof. unfold get_array. fresh_go. Qed.
Lemma fresh_get_feature n l : writes_fresh n (get_feature l) (λ _, True).
Proof. unfold get_feature. fresh_go. Qed.
Lemma fresh_get_box n l : writes_fresh n (get_box l) (λ _, True).
Proof. unfold get_box. fresh_go. Qed.
Lemma fresh_get_pose n l : writes_fresh n (get_pose l) (λ _, True).
Proof. unfold get_pose. fresh_go. Qed.

Ltac fresh_call :=
  first
    [ fresh_prim | apply fresh_get_cloud | apply fresh_get_array | apply fresh_get_feature
    | apply fresh_get_box | apply fresh_get_pose ].
Ltac fresh_auto :=
  repeat first
    [ fresh_call
    | apply fresh_mret; cbn; first [ done | lia | tauto ]
    | eapply fresh_bind; [ fresh_call | intros ? ? ]
    | match goal with
      | |- writes_fresh _ (match ?o with _ => _ end) _ => destruct o
      end ].

Lemma fresh_dcp n l : writes_fresh n (dcp l) (λ l', n ≤ l').
Proof. unfold dcp. fresh_auto. Qed.

Lemma fresh_print n line : writes_fresh n (print line) (λ _, True).
Proof. unfold print. fresh_auto. Qed.

Lemma fresh_paint_uniform_color n l color :
  n ≤ l → writes_fresh n (paint_uniform_color l color) (λ _, True).
Proof. intros Hl. unfold paint_uniform_color. fresh_auto. Qed.

Lemma fresh_transform n l m : n ≤ l → writes_fresh n (transform l m) (λ _, True).
Proof. intros Hl. unfold transform. fresh_auto. Qed.

Lemma fresh_crop n l box : writes_fresh n (crop l box) (λ l', n ≤ l').
Proof. unfold crop. fresh_auto. Qed.

Lemma fresh_set_color n l color : n ≤ l → writes_fresh n (set_color l color) (λ _, True).
Proof. intros Hl. unfold set_color. fresh_auto. Qed.

Lemma fresh_voxel_down_sample n l v : writes_fresh n (voxel_down_sample l v) (λ l', n ≤ l').
Proof. unfold voxel_down_sample. fresh_auto. Qed.

Lemma fresh_estimate_normals n l p : n ≤ l → writes_fresh n (estimate_normals l p) (λ _, True).
Proof. intros Hl. unfold estimate_normals. fresh_auto. Qed.

Lemma fresh_compute_fpfh_feature n l p :
  writes_fresh n (compute_fpfh_feature l p) (λ l', n ≤ l').
Proof. unfold compute_fpfh_feature. fresh_auto. Qed.

Lemma fresh_registration_fast n s t sf tf opt :
  writes_fresh n (registration_fast_based_on_feature_matching s t sf tf opt) (λ _, True).
Proof. unfold registration_fast_based_on_feature_matching. fresh_auto. Qed.

Lemma fresh_registration_icp n s t d i e :
  writes_fresh n (registration_icp s t d i e) (λ _, True).
Proof. unfold registration_icp. fresh_auto. Qed.

Lemma fresh_create_coordinate_frame n size :
  writes_fresh n (create_coordinate_frame size) (λ l', n ≤ l').
Proof. unfold create_coordinate_frame. fresh_auto. Qed.

Lemma fresh_get_all n ls : writes_fresh n (get_all ls) (λ _, True).
Proof. induction ls as [|l ls IH]; cbn [get_all]; [fresh_auto|].
  eapply fresh_bind; [apply fresh_get|]. intros o _.
  eapply fresh_bind; [apply IH|]. intros os _. by apply fresh_mret.
Qed.

Lemma fresh_draw_geometries n ls name width height :
  writes_fresh n (draw_geometries ls name width height) (λ _, True).
Proof.
  unfold draw_geometries. eapply fresh_bind; [apply fresh_get_all|]. intros; fresh_auto.
Qed.

Lemma fresh_set_attr n l f : n ≤ l → writes_fresh n (set_attr l f) (λ _, True).
Proof. intros Hl. unfold set_attr. fresh_auto. Qed.

(** The functions of the module. *)

Lemma fresh_preprocess_point_cloud n pcd v rn rf :
  writes_fresh n (preprocess_point_cloud pcd v rn rf) (λ '(d, f), n ≤ d ∧ n ≤ f).
Proof.
  unfold preprocess_point_cloud.
  eapply fresh_bind; [apply fresh_voxel_down_sample|]. intros d Hd.
  eapply fresh_bind; [by apply fresh_estimate_normals|]. intros _ _.
  eapply fresh_bind; [apply fresh_compute_fpfh_feature|]. intros f Hf.
  by apply fresh_mret.
Qed.

Lemma fresh_execute_fast_global_registration n s t sf tf d :
  writes_fresh n (execute_fast_global_registration s t sf tf d) (λ _, True).
Proof.
  unfold execute_fast_global_registration.
  eapply fresh_bind; [apply fresh_print|]. intros _ _.
  eapply fresh_bind; [apply fresh_registration_fast|]. intros r _. by apply fresh_mret.
Qed.

Lemma fresh_refine_registration n s t prev d :
  writes_fresh n (refine_registration s t prev d) (λ _, True).
Proof.
  unfold refine_registration.
  eapply fresh_bind; [apply fresh_print|]. intros _ _.
  eapply fresh_bind; [apply fresh_registration_icp|]. intros r _. by apply fresh_mret.
Qed.

Lemma fresh_prepare_source n g source_pcd :
  writes_fresh n (prepare_source g source_pcd) (λ '(o, p), n ≤ o ∧ n ≤ p).
Proof.
  unfold prepare_source.
  eapply fresh_bind; [apply fresh_dcp|]. intros o Ho.
  eapply fresh_bind; [by apply fresh_paint_uniform_color|]. intros _ _.
  eapply fresh_bind; [apply fresh_get_array|]. intros m _.
  eapply fresh_bind; [by apply fresh_transform|]. intros _ _.
  eapply fresh_bind; [apply fresh_dcp|]. intros p Hp.
  eapply fresh_bind; [apply fresh_crop|]. intros c _.
  by apply fresh_mret.
Qed.

Lemma fresh_register_source n g p :
  n ≤ p → writes_fresh n (register_source g p) (λ _, True).
Proof.
  intros Hp. unfold register_source.
  eapply fresh_bind; [apply fresh_get_array|]. intros m' _.
  eapply fresh_bind; [by apply fresh_transform|]. intros _ _.
  eapply fresh_bind; [apply fresh_preprocess_point_cloud|]. intros [d f] _.
  eapply fresh_bind; [apply fresh_execute_fast_global_registration|]. intros rf _.
  eapply fresh_bind; [apply fresh_refine_registration|]. intros rr _.
  eapply fresh_bind; [apply fresh_get_array|]. intros m _.
  by apply fresh_mret.
Qed.

Lemma fresh_compose_grasp_pose n g o t :
  writes_fresh n (compose_grasp_pose g o t) (λ l, n ≤ l).
Proof.
  unfold compose_grasp_pose.
  eapply fresh_bind; [apply fresh_create_coordinate_frame|]. intros fr Hfr.
  eapply fresh_bind; [apply fresh_lift|]. intros ti _.
  eapply fresh_bind; [apply fresh_get_array|]. intros ref _.
  eapply fresh_bind; [by apply fresh_transform|]. intros _ _.
  eapply fresh_bind; [apply fresh_print|]. intros _ _.
  eapply fresh_bind; [apply fresh_draw_geometries|]. intros _ _.
  eapply fresh_bind; [apply fresh_lift|]. intros [[[q0 q1] q2] q3] _.
  destruct (translation_column _) as [[t0 t1] t2].
  eapply fresh_bind; [apply fresh_dcp|]. intros p Hp.
  do 7 (eapply fresh_bind; [by apply fresh_set_attr|]; intros _ _).
  by apply fresh_mret.
Qed.

Lemma fresh_get_target_grasp_pose n g source_pcd :
  writes_fresh n (get_target_grasp_pose g source_pcd) (λ l, n ≤ l).
Proof.
  unfold get_target_grasp_pose.
  eapply fresh_bind; [apply fresh_prepare_source|]. intros [o p] [_ Hp].
  eapply fresh_bind; [by apply fresh_register_source|]. intros t _.
  apply fresh_compose_grasp_pose.
Qed.

Lemma fresh_module_init n files : writes_fresh n (module_init files) (λ _, True).
Proof.
  unfold module_init.
  do 3 (eapply fresh_bind; [apply fresh_alloc|]; intros ? _).
  eapply fresh_bind; [apply fresh_lift|]. intros b _.
  eapply fresh_bind; [apply fresh_alloc|]. intros box Hbox.
  eapply fresh_bind; [by apply fresh_set_color|]. intros _ _.
  eapply fresh_bind; [apply fresh_create_coordinate_frame|]. intros robot _.
  eapply fresh_bind; [apply fresh_create_coordinate_frame|]. intros cam Hcam.
  eapply fresh_bind; [apply fresh_get_array|]. intros m _.
  eapply fresh_bind; [by apply fresh_transform|]. intros _ _.
  eapply fresh_bind; [apply fresh_alloc|]. intros tgt Htgt.
  eapply fresh_bind; [apply fresh_get_array|]. intros m' _.
  eapply fresh_bind; [by apply fresh_transform|]. intros _ _.
  eapply fresh_bind; [by apply fresh_paint_uniform_color|]. intros _ _.
  eapply fresh_bind; [apply fresh_preprocess_point_cloud|]. intros [d f] _.
  eapply fresh_bind; [apply fresh_get_array|]. intros arr _.
  do 2 (eapply fresh_bind; [apply fresh_alloc|]; intros ? _).
  by apply fresh_mret.
Qed.

End Frame.

(** ** Running the program on a symbolic heap *)

Section Runs.
Context `{GeometryProvider}.

(** Lookups in a heap that was extended or updated at known addresses. *)
Ltac heap_lookup :=
  repeat first
    [ rewrite lookup_insert_eq
    | rewrite lookup_insert_ne by lia ].
(** What the hypotheses say about the objects read and the library calls made. *)
Ltac use_hyps :=
  repeat match goal with
  | H : ?h !! ?l = _ |- context [?h !! ?l] => rewrite H
  | H : ?f = Ok _ |- context [?f] => rewrite H
  | H : ?f = Err _ |- context [?f] => rewrite H
  end.
Ltac run :=
  repeat (cbv beta iota zeta delta [heap next out fst snd]; heap_lookup; use_hyps).
Ltac unfold_program :=
  unfold get_target_grasp_pose, prepare_source, register_source, compose_grasp_pose,
    module_init, preprocess_point_cloud, execute_fast_global_registration,
    refine_registration;
  unfold crop, paint_uniform_color, voxel_down_sample, estimate_normals,
    compute_fpfh_feature, registration_fast_based_on_feature_matching,
    registration_icp, set_color, transform, print, draw_geometries, dcp, set_attr,
    create_coordinate_frame;
  unfold get_all, get_array, get_cloud, get_feature, get_box, get_pose;
  unfold get, put, alloc, emit, lift, raise, mbind, M_bind, mret, M_ret.
Ltac open_installed Hi :=
  destruct Hi as [[? ?] [? ?] [? ?] [? ?] [? ?] [? ?] [? ?] [? ?] [? ?] [? ?] [? ?]].

Lemma installed_frame g V w w' :
  installed g V w → frame (next w) w w' → installed g V w'.
Proof.
  intros Hi (Hn & Hsame & _).
  assert (Hh : ∀ l o, holds w l o → holds w' l o).
  { intros l o [Hl Hlt]. split; [by rewrite Hsame|lia]. }
  destruct Hi. split; by apply Hh.
Qed.

(** Importing the module binds the globals to eleven new objects. *)
Lemma module_init_inv files w0 g w :
  module_init files w0 = (Ok g, w) →
  init_transformation_for_global_registration g ≠ transform_base_to_cam_hand_calibrated g ∧
  ∃ b tdown tfpfh, computed_at_import files b tdown tfpfh ∧
    installed g (initial_values files b tdown tfpfh) w.
Proof.
  destruct w0 as [h n o].
  unfold computed_at_import, target_in_base, normal_search, feature_search, grey.
  unfold_program. run.
  destruct (create_from_points_of _) as [b|e] eqn:Hb; run; [|discriminate].
  destruct (voxel_down_sample_of _ _) as [d|e] eqn:Hd; run; [|discriminate].
  destruct (estimate_normals_of _ _) as [dn|e] eqn:Hdn; run; [|discriminate].
  destruct (compute_fpfh_feature_of _ _) as [f|e] eqn:Hf; run; [|discriminate].
  intros [= <- <-]. split; [cbn; lia|]. exists b, dn, f. split; [eauto|].
  split; split; cbn; heap_lookup; try reflexivity; lia.
Qed.

Lemma running_invariant files g w :
  running files g w →
  wf_world w ∧
  init_transformation_for_global_registration g ≠ transform_base_to_cam_hand_calibrated g ∧
  ∃ b tdown tfpfh, computed_at_import files b tdown tfpfh ∧
    installed g (initial_values files b tdown tfpfh) w.
Proof.
  induction 1 as [w0 w Hwf Hinit|w o _ IH|w source_pcd _ IH].
  - split; [|by eapply module_init_inv].
    destruct (fresh_module_init (next w0) files w0 (le_n _)) as [(_ & _ & Hw) _].
    rewrite Hinit in Hw. by apply Hw.
  - destruct IH as (Hwf & Hne & b & td & tf & Hc & Hi).
    destruct (fresh_alloc (next w) o w (le_n _)) as [Hf _].
    split; [by apply Hf|]. split; [done|]. exists b, td, tf. split; [done|].
    by eapply installed_frame.
  - destruct IH as (Hwf & Hne & b & td & tf & Hc & Hi).
    destruct (fresh_get_target_grasp_pose (next w) g source_pcd w (le_n _)) as [Hf _].
    split; [by apply Hf|]. split; [done|]. exists b, td, tf. split; [done|].
    by eapply installed_frame.
Qed.

(** A call that returns went through every library call, in this order. *)
Lemma get_target_grasp_pose_inv w g V source_pcd l w' :
  installed g V w → wf_world w →
  get_target_grasp_pose g source_pcd w = (Ok l, w') →
  ∃ c down dn f fast refine Ti q,
    heap w !! source_pcd = Some (OCloud c) ∧
    voxel_down_sample_of VOXEL_SIZE
      (transform_cloud (init_transformation_value V)
         (transform_cloud (cam_to_base_value V) (paint blue c))) = Ok down ∧
    estimate_normals_of normal_search down = Ok dn ∧
    compute_fpfh_feature_of dn feature_search = Ok f ∧
    registration_fast_based_on_feature_matching_of dn (target_down_value V) f
      (target_fpfh_value V)
      {| maximum_correspondence_distance := GLOBAL_DISTANCE_THRESHOLD |} = Ok fast ∧
    registration_icp_of dn (target_down_value V) ICP_REFINE_DISTANCE_THRESHOLD
      (transformation fast) TransformationEstimationPointToPlane = Ok refine ∧
    linalg_inv (matmul (transformation refine) (init_transformation_value V)) = Ok Ti ∧
    from_rotation_matrix (rotation_block (matmul Ti (reference_grasp_value V))) = Ok q ∧
    heap w' !! l =
      Some (OPose (pose_of (pose_msg_value V) (matmul Ti (reference_grasp_value V)) q)).
Proof.
  intros Hi Hwf. open_installed Hi.
  destruct w as [h n o]; cbn [heap next out] in *.
  unfold normal_search, feature_search, blue.
  unfold_program.
  destruct (h !! source_pcd) as [os|] eqn:Hs; run; [|discriminate].
  apply Hwf in Hs as Hlt; cbn in Hlt.
  destruct os as [c| | | | |]; run; try discriminate.
  destruct (voxel_down_sample_of _ _) as [d|e] eqn:Hd; run; [|discriminate].
  destruct (estimate_normals_of _ _) as [dn|e] eqn:Hdn; run; [|discriminate].
  destruct (compute_fpfh_feature_of _ _) as [f|e] eqn:Hf; run; [|discriminate].
  destruct (registration_fast_based_on_feature_matching_of _ _ _ _ _)
    as [fast|e] eqn:Hfast; run; [|discriminate].
  destruct (registration_icp_of _ _ _ _ _) as [refine|e] eqn:Hicp; run; [|discriminate].
  destruct (linalg_inv _) as [Ti|e] eqn:Hinv; run; [|discriminate].
  destruct (from_rotation_matrix _) as [q|e] eqn:Hq; run; [|discriminate].
  destruct q as [[[q0 q1] q2] q3].
  destruct (translation_column _) as [[t0 t1] t2] eqn:Ht. run.
  intros [= <- <-].
  exists c, d, dn, f, fast, refine, Ti, (q0, q1, q2, q3).
  repeat split; try done. cbn. heap_lookup. unfold pose_of. rewrite Ht. reflexivity.
Qed.

(** The three ways [compose_grasp_pose] can go, by the outcome of the two
    library calls whose result it uses. *)
Lemma compose_grasp_pose_cases g V w orig o T :
  installed g V w → holds w orig o →
  let r := compose_grasp_pose g orig T w in
  let ref := reference_grasp_value V in
  match linalg_inv T with
  | Err e => r.1 = Err e ∧ out r.2 = out w
  | Ok Ti =>
      out r.2 = (out w ++ shown V o (matmul Ti ref))%list ∧
      match from_rotation_matrix (rotation_block (matmul Ti ref)) with
      | Err e => r.1 = Err e
      | Ok q =>
          r.1 = Ok (S (next w)) ∧
          heap r.2 !! S (next w) = Some (OPose (pose_of (pose_msg_value V) (matmul Ti ref) q))
      end
  end.
Proof.
  intros Hi [Ho ?]. open_installed Hi.
  destruct w as [h n out0]; cbn [heap next out] in *.
  unfold shown. unfold_program.
  destruct (linalg_inv T) as [Ti|e] eqn:Hinv; run; [|done].
  destruct (from_rotation_matrix _) as [q|e] eqn:Hq; run.
  - destruct q as [[[q0 q1] q2] q3]. unfold pose_of.
    destruct (translation_column _) as [[t0 t1] t2]. run.
    split; [by rewrite <- app_assoc|]. split; [done|]. by heap_lookup.
  - split; [by rewrite <- app_assoc|done].
Qed.

(** The outcome of [preprocess_point_cloud] on a cloud, by the outcome of the
    three library calls it makes. *)
Lemma preprocess_point_cloud_cases w pcd c v rn rf :
  holds w pcd (OCloud c) →
  let r := preprocess_point_cloud pcd v rn rf w in
  match voxel_down_sample_of v c with
  | Err e => r.1 = Err e
  | Ok d =>
      match estimate_normals_of {| radius := rn; max_nn := 100 |} d with
      | Err e => r.1 = Err e
      | Ok dn =>
          match compute_fpfh_feature_of dn {| radius := rf; max_nn := 200 |} with
          | Err e => r.1 = Err e
          | Ok f =>
              r.1 = Ok (next w, S (next w)) ∧
              heap r.2 !! next w = Some (OCloud dn) ∧
              heap r.2 !! S (next w) = Some (OFeature f)
          end
      end
  end.
Proof.
  intros [Hc ?]. destruct w as [h n o]; cbn [heap next out] in *.
  unfold_program. run.
  destruct (voxel_down_sample_of v c) as [d|e]; run; [|done].
  destruct (estimate_normals_of _ d) as [dn|e]; run; [|done].
  destruct (compute_fpfh_feature_of dn _) as [f|e]; run; [|done].
  split; [done|]. by heap_lookup.
Qed.

(** [preprocess_point_cloud] prints nothing and draws nothing. *)
Lemma preprocess_point_cloud_silent w pcd v rn rf :
  out (preprocess_point_cloud pcd v rn rf w).2 = out w.
Proof.
  destruct w as [h n o]. unfold_program.
  destruct (h !! pcd) as [[c| | | | |]|] eqn:Hpcd; run; try done.
  destruct (voxel_down_sample_of v c) as [d|e]; run; [|done].
  destruct (estimate_normals_of _ d) as [dn|e]; run; [|done].
  destruct (compute_fpfh_feature_of dn _) as [f|e]; run; done.
Qed.

(** [execute_fast_global_registration] prints its line and hands back what
    the library call gave, a result or an exception. *)
Lemma execute_fast_global_registration_run w s t sf tf d cs ct fs ft :
  heap w !! s = Some (OCloud cs) → heap w !! t = Some (OCloud ct) →
  heap w !! sf = Some (OFeature fs) → heap w !! tf = Some (OFeature ft) →
  execute_fast_global_registration s t sf tf d w =
    (registration_fast_based_on_feature_matching_of cs ct fs ft
       {| maximum_correspondence_distance := d |},
     {| heap := heap w; next := next w;
        out := (out w ++ [Printed "[INFO] Fast global registration with fpfh features"])%list |}).
Proof.
  intros Hs Ht Hsf Htf. destruct w as [h n o]; cbn [heap next out] in *.
  unfold_program. run.
  by destruct (registration_fast_based_on_feature_matching_of _ _ _ _ _).
Qed.

(** X1.  Lines 82-88 leave three new clouds: the copy in the robot frame, the copy
    to process, which still has every point, and the cropped cloud, to which
    no name is bound. *)
Lemma prepare_source_run g V w source_pcd c :
  installed g V w → holds w source_pcd (OCloud c) →
  let in_base := transform_cloud (cam_to_base_value V) (paint blue c) in
  let r := prepare_source g source_pcd w in
  r.1 = Ok (next w, S (next w)) ∧
  heap r.2 !! next w = Some (OCloud in_base) ∧
  heap r.2 !! S (next w) = Some (OCloud in_base) ∧
  heap r.2 !! S (S (next w)) = Some (OCloud (crop_cloud (box_value V) in_base)).
Proof.
  intros Hi [Hc ?]. open_installed Hi.
  destruct w as [h n o]; cbn [heap next out] in *.
  unfold blue. unfold_program. run.
  split; [done|]. by heap_lookup.
Qed.


(** The ways a call can go, by the outcome of the seven library calls whose
    result it uses, with what it has printed and drawn by then. *)
Lemma get_target_grasp_pose_cases g V w source_pcd c :
  installed g V w → holds w source_pcd (OCloud c) →
  let r := get_target_grasp_pose g source_pcd w in
  let in_base := transform_cloud (cam_to_base_value V) (paint blue c) in
  let moved := transform_cloud (init_transformation_value V) in_base in
  let ref := reference_grasp_value V in
  match voxel_down_sample_of VOXEL_SIZE moved with
  | Err e => r.1 = Err e ∧ out r.2 = out w
  | Ok down =>
  match estimate_normals_of normal_search down with
  | Err e => r.1 = Err e ∧ out r.2 = out w
  | Ok dn =>
  match compute_fpfh_feature_of dn feature_search with
  | Err e => r.1 = Err e ∧ out r.2 = out w
  | Ok f =>
  match registration_fast_based_on_feature_matching_of dn (target_down_value V) f
          (target_fpfh_value V)
          {| maximum_correspondence_distance := GLOBAL_DISTANCE_THRESHOLD |} with
  | Err e => r.1 = Err e ∧ out r.2 = (out w ++ [fgr_line])%list
  | Ok fast =>
  match registration_icp_of dn (target_down_value V) ICP_REFINE_DISTANCE_THRESHOLD
          (transformation fast) TransformationEstimationPointToPlane with
  | Err e => r.1 = Err e ∧ out r.2 = (out w ++ [fgr_line; icp_line])%list
  | Ok refine =>
  match linalg_inv (matmul (transformation refine) (init_transformation_value V)) with
  | Err e => r.1 = Err e ∧ out r.2 = (out w ++ [fgr_line; icp_line])%list
  | Ok Ti =>
      out r.2 = (out w ++ [fgr_line; icp_line] ++ shown V (OCloud in_base) (matmul Ti ref))%list ∧
      match from_rotation_matrix (rotation_block (matmul Ti ref)) with
      | Err e => r.1 = Err e
      | Ok q =>
          r.1 = Ok (6 + next w) ∧
          heap r.2 !! (6 + next w) = Some (OPose (pose_of (pose_msg_value V) (matmul Ti ref) q))
      end
  end end end end end end.
Proof.
  intros Hi [Hs ?] r. open_installed Hi.
  destruct r as [res w'] eqn:Hr. subst r. revert Hr.
  destruct w as [h n o]; cbn [heap next out fst snd] in *.
  unfold normal_search, feature_search, blue, shown, fgr_line, icp_line.
  unfold_program. run.
  destruct (voxel_down_sample_of _ _) as [d|e] eqn:Hd; run;
    [|by intros [= <- <-]].
  destruct (estimate_normals_of _ _) as [dn|e] eqn:Hdn; run;
    [|by intros [= <- <-]].
  destruct (compute_fpfh_feature_of _ _) as [f|e] eqn:Hf; run;
    [|by intros [= <- <-]].
  destruct (registration_fast_based_on_feature_matching_of _ _ _ _ _)
    as [fast|e] eqn:Hfast; run; [|by intros [= <- <-]].
  destruct (registration_icp_of _ _ _ _ _) as [refine|e] eqn:Hicp; run;
    [|intros [= <- <-]; by rewrite <- app_assoc].
  destruct (linalg_inv _) as [Ti|e] eqn:Hinv; run;
    [|intros [= <- <-]; by rewrite <- app_assoc].
  destruct (from_rotation_matrix _) as [q|e] eqn:Hq; run.
  - destruct q as [[[q0 q1] q2] q3]. unfold pose_of.
    destruct (translation_column _) as [[t0 t1] t2]. run.
    intros [= <- <-]. cbn [heap out].
    split; [by rewrite <- !app_assoc|]. split; [done|]. by heap_lookup.
  - intros [= <- <-]. split; [by rewrite <- !app_assoc|done].
Qed.

(** The ways the import can go, by the outcome of the four library calls
    whose result it uses. *)
Lemma module_init_cases files w0 :
  let r := module_init files w0 in
  out r.2 = out w0 ∧
  match create_from_points_of (workspace_bounding_box_array_in_base_npy files) with
  | Err e => r.1 = Err e
  | Ok b =>
  match voxel_down_sample_of VOXEL_SIZE (target_in_base files) with
  | Err e => r.1 = Err e
  | Ok d =>
  match estimate_normals_of normal_search d with
  | Err e => r.1 = Err e
  | Ok tdown =>
  match compute_fpfh_feature_of tdown feature_search with
  | Err e => r.1 = Err e
  | Ok tfpfh =>
      ∃ g, r.1 = Ok g ∧ addresses g = List.seq (next w0) 11 ∧
           installed g (initial_values files b tdown tfpfh) r.2
  end end end end.
Proof.
  intros r. destruct r as [res w'] eqn:Hr. subst r. revert Hr.
  destruct w0 as [h n o]; cbn [heap next out fst snd].
  unfold target_in_base, normal_search, feature_search, grey.
  unfold_program. run.
  destruct (create_from_points_of _) as [b|e] eqn:Hb; run;
    [|by intros [= <- <-]].
  destruct (voxel_down_sample_of _ _) as [d|e] eqn:Hd; run;
    [|by intros [= <- <-]].
  destruct (estimate_normals_of _ _) as [dn|e] eqn:Hdn; run;
    [|by intros [= <- <-]].
  destruct (compute_fpfh_feature_of _ _) as [f|e] eqn:Hf; run;
    [|by intros [= <- <-]].
  intros [= <- <-]. split; [done|]. eexists. split; [reflexivity|].
  split; [reflexivity|].
  split; split; cbn; heap_lookup; try reflexivity; lia.
Qed.

End Runs.

(** ** The product with the identity *)

Section Algebra.
Context `{Scalar}.

Section Zeros.
Variable zero : F → Prop.
Hypothesis zero_sum : ∀ y z, zero y → zero z → zero (fadd y z).

(** A row of the identity times a column of ordinary scalars picks the
    entry of the column that meets the one. *)
Lemma one_first x y1 y2 y3 :
  ordinary zero x → ordinary zero y1 → ordinary zero y2 → ordinary zero y3 →
  sum_of_products fone x fzero y1 fzero y2 fzero y3 = x.
Proof.
  intros (-> & _ & Hx) (_ & H1 & _) (_ & H2 & _) (_ & H3 & _).
  by rewrite (proj1 (Hx _ H1)), (proj1 (Hx _ H2)), (proj1 (Hx _ H3)).
Qed.

Lemma one_second y0 x y2 y3 :
  ordinary zero y0 → ordinary zero x → ordinary zero y2 → ordinary zero y3 →
  sum_of_products fzero y0 fone x fzero y2 fzero y3 = x.
Proof.
  intros (_ & H0 & _) (-> & _ & Hx) (_ & H2 & _) (_ & H3 & _).
  by rewrite (proj2 (Hx _ H0)), (proj1 (Hx _ H2)), (proj1 (Hx _ H3)).
Qed.

Lemma one_third y0 y1 x y3 :
  ordinary zero y0 → ordinary zero y1 → ordinary zero x → ordinary zero y3 →
  sum_of_products fzero y0 fzero y1 fone x fzero y3 = x.
Proof.
  intros (_ & H0 & _) (_ & H1 & _) (-> & _ & Hx) (_ & H3 & _).
  by rewrite (proj2 (Hx _ (zero_sum _ _ H0 H1))), (proj1 (Hx _ H3)).
Qed.

Lemma one_fourth y0 y1 y2 x :
  ordinary zero y0 → ordinary zero y1 → ordinary zero y2 → ordinary zero x →
  sum_of_products fzero y0 fzero y1 fzero y2 fone x = x.
Proof.
  intros (_ & H0 & _) (_ & H1 & _) (_ & H2 & _) (-> & _ & Hx).
  by rewrite (proj2 (Hx _ (zero_sum _ _ (zero_sum _ _ H0 H1) H2))).
Qed.

(** Multiplying by the identity on the left gives the matrix back, entry by
    entry, when its entries are ordinary and a sum of zeros is a zero. *)
Lemma matmul_identity_l (m : mat4) :
  Forall (ordinary zero) (mat4_entries m) → matmul identity4 m = m.
Proof.
  intros Hm.
  destruct m as
    [[[[[[a0 a1] a2] a3] [[[b0 b1] b2] b3]] [[[c0 c1] c2] c3]] [[[d0 d1] d2] d3]].
  cbn in Hm. repeat (apply Forall_cons in Hm as [? Hm]).
  cbv [matmul identity4 row_times dot4 col0 col1 col2 col3].
  repeat f_equal;
    first [by apply one_first | by apply one_second | by apply one_third | by apply one_fourth].
Qed.

End Zeros.

End Algebra.

(** With the two zeros of floating-point arithmetic every number is
    ordinary, the negative ones too; the negative zero is not. *)
Lemma signed_numbers_are_ordinary z : @ordinary signed_integers signed_zero (Int z).
Proof.
  split; [|split].
  - cbn. unfold signed_mul. cbn [is_zero negative value orb xorb].
    destruct (Z.eqb_spec z 0) as [->|_]; [done|]. change (1 =? 0)%Z with false.
    cbn [orb]. by rewrite Z.mul_1_l.
  - cbn. unfold signed_mul. cbn. destruct (z <? 0)%Z; [by right|by left].
  - intros a [->| ->]; cbn; by rewrite ?Z.add_0_r.
Qed.

Lemma signed_zeros_add (a b : signed) :
  signed_zero a → signed_zero b → signed_zero (@fadd signed_integers a b).
Proof. intros [->| ->] [->| ->]; cbn; first [by left | by right]. Qed.

Lemma negative_zero_is_not_ordinary : ¬ @ordinary signed_integers signed_zero NegZero.
Proof. intros (_ & _ & Hz). by destruct (Hz (Int 0) (or_introl eq_refl)) as [? _]. Qed.

(** ** The product of two transformations, in exact arithmetic *)

Section ExactArithmetic.
Context `{Scalar} (same : F → F → Prop).
Hypothesis exact : exact_up_to same.

Lemma same_ext : sring_eq_ext fadd fmul same.
Proof. split; [apply (fadd_respects _ exact) | apply (fmul_respects _ exact)]. Qed.

Add Ring scalars :
  (same_semi_ring _ exact) (setoid (same_equivalence _ exact) same_ext).

(** Where sums and products are exact, a row of the product of two matrices
    applied to a vector is the row of the first applied to what the second
    makes of the vector. *)
Lemma row_of_product_applied a0 a1 a2 a3
    d00 d01 d02 d03 d10 d11 d12 d13 d20 d21 d22 d23 d30 d31 d32 d33 x y z u :
  same
    (sum_of_products
       (sum_of_products a0 d00 a1 d10 a2 d20 a3 d30) x
       (sum_of_products a0 d01 a1 d11 a2 d21 a3 d31) y
       (sum_of_products a0 d02 a1 d12 a2 d22 a3 d32) z
       (sum_of_products a0 d03 a1 d13 a2 d23 a3 d33) u)
    (sum_of_products
       a0 (sum_of_products d00 x d01 y d02 z d03 u)
       a1 (sum_of_products d10 x d11 y d12 z d13 u)
       a2 (sum_of_products d20 x d21 y d22 z d23 u)
       a3 (sum_of_products d30 x d31 y d32 z d33 u)).
Proof. ring. Qed.

End ExactArithmetic.

(** The rationals of the scene are exact up to the equality of fractions. *)
Lemma rational_exact : @exact_up_to rational Qeq.
Proof.
  split.
  - exact Q_Setoid.
  - intros a a' Ha b b' Hb. cbn. unfold qadd. by rewrite !Qred_correct, Ha, Hb.
  - intros a a' Ha b b' Hb. cbn. unfold qmul. by rewrite !Qred_correct, Ha, Hb.
  - split; intros; cbn; unfold qadd, qmul; rewrite ?Qred_correct; ring.
Qed.

(** * The claims, for every provider *)

Section Claims.
Context `{GeometryProvider}.

(** C2.  For every transformation [T] from source to target that
    registration hands over, the pose is built from the grasp transform
    [inv(T) * base_to_reference_grasp], the matrix product written out here
    entry by entry: the position is the last column of the product (rows x,
    y, z), the orientation is the quaternion the library returns for its
    upper left 3x3 block, and the product is the transform of the grasp frame
    in the window.  When [T] is the identity, and the library inverts the
    identity to itself, position and orientation are those of
    [base_to_reference_grasp] itself, for a reference matrix of ordinary
    scalars: with exact numbers every scalar is ordinary, with floats every
    finite one other than -0.0. *)
Theorem grasp_transform_is_inverse_times_reference g V w orig o T
    b00 b01 b02 b03 b10 b11 b12 b13 b20 b21 b22 b23 b30 b31 b32 b33 :
  installed g V w → holds w orig o →
  reference_grasp_value V =
    ((b00, b01, b02, b03), (b10, b11, b12, b13), (b20, b21, b22, b23), (b30, b31, b32, b33)) →
  let r := compose_grasp_pose g orig T w in
  (∀ a00 a01 a02 a03 a10 a11 a12 a13 a20 a21 a22 a23 a30 a31 a32 a33
     q0 q1 q2 q3,
     linalg_inv T =
       Ok ((a00, a01, a02, a03), (a10, a11, a12, a13),
           (a20, a21, a22, a23), (a30, a31, a32, a33)) →
     let g00 := sum_of_products a00 b00 a01 b10 a02 b20 a03 b30 in
     let g01 := sum_of_products a00 b01 a01 b11 a02 b21 a03 b31 in
     let g02 := sum_of_products a00 b02 a01 b12 a02 b22 a03 b32 in
     let g03 := sum_of_products a00 b03 a01 b13 a02 b23 a03 b33 in
     let g10 := sum_of_products a10 b00 a11 b10 a12 b20 a13 b30 in
     let g11 := sum_of_products a10 b01 a11 b11 a12 b21 a13 b31 in
     let g12 := sum_of_products a10 b02 a11 b12 a12 b22 a13 b32 in
     let g13 := sum_of_products a10 b03 a11 b13 a12 b23 a13 b33 in
     let g20 := sum_of_products a20 b00 a21 b10 a22 b20 a23 b30 in
     let g21 := sum_of_products a20 b01 a21 b11 a22 b21 a23 b31 in
     let g22 := sum_of_products a20 b02 a21 b12 a22 b22 a23 b32 in
     let g23 := sum_of_products a20 b03 a21 b13 a22 b23 a23 b33 in
     let g30 := sum_of_products a30 b00 a31 b10 a32 b20 a33 b30 in
     let g31 := sum_of_products a30 b01 a31 b11 a32 b21 a33 b31 in
     let g32 := sum_of_products a30 b02 a31 b12 a32 b22 a33 b32 in
     let g33 := sum_of_products a30 b03 a31 b13 a32 b23 a33 b33 in
     from_rotation_matrix ((g00, g01, g02), (g10, g11, g12), (g20, g21, g22))
       = Ok (q0, q1, q2, q3) →
     r.1 = Ok (S (next w)) ∧
     heap r.2 !! S (next w) =
       Some (OPose
               {| header := header (pose_msg_value V);
                  pose := {| position := {| px := g03; py := g13; pz := g23 |};
                             orientation := {| qx := q1; qy := q2; qz := q3; qw := q0 |} |} |}) ∧
     out r.2 =
       (out w ++ shown V o ((g00, g01, g02, g03), (g10, g11, g12, g13),
                            (g20, g21, g22, g23), (g30, g31, g32, g33)))%list) ∧
  (∀ (zero : F → Prop) q0 q1 q2 q3,
     T = ((fone, fzero, fzero, fzero), (fzero, fone, fzero, fzero),
          (fzero, fzero, fone, fzero), (fzero, fzero, fzero, fone)) →
     linalg_inv T = Ok T →
     (∀ y z, zero y → zero z → zero (fadd y z)) →
     Forall (ordinary zero)
       [b00; b01; b02; b03; b10; b11; b12; b13; b20; b21; b22; b23; b30; b31; b32; b33] →
     from_rotation_matrix ((b00, b01, b02), (b10, b11, b12), (b20, b21, b22))
       = Ok (q0, q1, q2, q3) →
     r.1 = Ok (S (next w)) ∧
     heap r.2 !! S (next w) =
       Some (OPose
               {| header := header (pose_msg_value V);
                  pose := {| position := {| px := b03; py := b13; pz := b23 |};
                             orientation := {| qx := q1; qy := q2; qz := q3; qw := q0 |} |} |})).
Proof.
  intros Hi Ho Href r.
  pose proof (compose_grasp_pose_cases g V w orig o T Hi Ho) as Hc. cbv zeta in Hc.
  fold r in Hc. rewrite Href in Hc. split.
  - intros a00 a01 a02 a03 a10 a11 a12 a13 a20 a21 a22 a23 a30 a31 a32 a33.
    intros q0 q1 q2 q3 HTi. cbv zeta. intros Hq. rewrite HTi in Hc. destruct Hc as [Hout Hc].
    cbv [matmul row_times dot4 col0 col1 col2 col3 rotation_block] in Hc, Hout.
    rewrite Hq in Hc. destruct Hc as [Hr Hl].
    split; [exact Hr|]. split; [exact Hl|exact Hout].
  - intros zero q0 q1 q2 q3 HT Hinv Hz Hord Hq. rewrite Hinv, HT in Hc.
    destruct Hc as [_ Hc].
    change ((fone, fzero, fzero, fzero), (fzero, fone, fzero, fzero),
            (fzero, fzero, fone, fzero), (fzero, fzero, fzero, fone))
      with identity4 in Hc.
    rewrite (matmul_identity_l zero Hz
               ((b00, b01, b02, b03), (b10, b11, b12, b13),
                (b20, b21, b22, b23), (b30, b31, b32, b33)) Hord) in Hc.
    cbv [rotation_block] in Hc. rewrite Hq in Hc.
    cbv [pose_of translation_column] in Hc. exact Hc.
Qed.

(** C3, as the program has it.  Every pose a call returns carries the header
    of [PoseStamped()], whose frame identifier is the empty string: the
    program never assigns [header.frame_id].  Its position and orientation
    are those of the grasp transform of this call: with [refine] the refined
    registration of the captured cloud, moved into the robot frame and by
    the displacement, against the target, the grasp transform is the inverse
    of [refine.transformation * displacement] times
    [base_to_reference_grasp]; the position is the last column (x, y, z) of
    that product and the orientation the quaternion (w, x, y, z) the library
    returns for its upper left 3x3 block. *)
Theorem returned_pose_has_the_header_of_pose_msg files g w source_pcd l w'
    b00 b01 b02 b03 b10 b11 b12 b13 b20 b21 b22 b23 b30 b31 b32 b33 :
  running files g w →
  transform_base_to_reference_grasp_npy files =
    ((b00, b01, b02, b03), (b10, b11, b12, b13), (b20, b21, b22, b23), (b30, b31, b32, b33)) →
  get_target_grasp_pose g source_pcd w = (Ok l, w') →
  let displacement := transform_base_to_cam_fine_tuned_npy files in
  let cam_to_base := transform_cam_to_base_fine_tuned_npy files in
  ∃ p, heap w' !! l = Some (OPose p) ∧
       header p = header PoseStamped_new ∧
       frame_id (header p) = "" ∧
       ∃ c tdown tfpfh down dn f fast refine
         a00 a01 a02 a03 a10 a11 a12 a13 a20 a21 a22 a23 a30 a31 a32 a33
         q0 q1 q2 q3,
         heap w !! source_pcd = Some (OCloud c) ∧
         heap w !! target_down g = Some (OCloud tdown) ∧
         heap w !! target_fpfh g = Some (OFeature tfpfh) ∧
         voxel_down_sample_of VOXEL_SIZE
           (transform_cloud displacement (transform_cloud cam_to_base (paint blue c)))
           = Ok down ∧
         estimate_normals_of normal_search down = Ok dn ∧
         compute_fpfh_feature_of dn feature_search = Ok f ∧
         registration_fast_based_on_feature_matching_of dn tdown f tfpfh
           {| maximum_correspondence_distance := GLOBAL_DISTANCE_THRESHOLD |} = Ok fast ∧
         registration_icp_of dn tdown ICP_REFINE_DISTANCE_THRESHOLD
           (transformation fast) TransformationEstimationPointToPlane = Ok refine ∧
         linalg_inv (matmul (transformation refine) displacement) =
           Ok ((a00, a01, a02, a03), (a10, a11, a12, a13),
               (a20, a21, a22, a23), (a30, a31, a32, a33)) ∧
         let g00 := sum_of_products a00 b00 a01 b10 a02 b20 a03 b30 in
         let g01 := sum_of_products a00 b01 a01 b11 a02 b21 a03 b31 in
         let g02 := sum_of_products a00 b02 a01 b12 a02 b22 a03 b32 in
         let g03 := sum_of_products a00 b03 a01 b13 a02 b23 a03 b33 in
         let g10 := sum_of_products a10 b00 a11 b10 a12 b20 a13 b30 in
         let g11 := sum_of_products a10 b01 a11 b11 a12 b21 a13 b31 in
         let g12 := sum_of_products a10 b02 a11 b12 a12 b22 a13 b32 in
         let g13 := sum_of_products a10 b03 a11 b13 a12 b23 a13 b33 in
         let g20 := sum_of_products a20 b00 a21 b10 a22 b20 a23 b30 in
         let g21 := sum_of_products a20 b01 a21 b11 a22 b21 a23 b31 in
         let g22 := sum_of_products a20 b02 a21 b12 a22 b22 a23 b32 in
         let g23 := sum_of_products a20 b03 a21 b13 a22 b23 a23 b33 in
         from_rotation_matrix ((g00, g01, g02), (g10, g11, g12), (g20, g21, g22))
           = Ok (q0, q1, q2, q3) ∧
         position (pose p) = {| px := g03; py := g13; pz := g23 |} ∧
         orientation (pose p) = {| qx := q1; qy := q2; qz := q3; qw := q0 |}.
Proof.
  intros Hrun Href Hcall displacement cam_to_base.
  destruct (running_invariant files g w Hrun) as (Hwf & _ & b & td & tf & _ & Hi).
  destruct (get_target_grasp_pose_inv w g _ source_pcd l w' Hi Hwf Hcall)
    as (c & d & dn & f & fast & refine & Ti & q
        & Hs & Hd & Hdn & Hf & Hfast & Hicp & HTi & Hq & Hl).
  cbn [init_transformation_value cam_to_base_value target_down_value target_fpfh_value
       reference_grasp_value pose_msg_value initial_values] in *.
  rewrite Href in Hq, Hl.
  destruct Ti as
    [[[[[[a00 a01] a02] a03] [[[a10 a11] a12] a13]] [[[a20 a21] a22] a23]] [[[a30 a31] a32] a33]].
  destruct q as [[[q0 q1] q2] q3].
  cbv [matmul row_times dot4 col0 col1 col2 col3 rotation_block] in Hq.
  cbv [pose_of translation_column matmul row_times dot4 col0 col1 col2 col3] in Hl.
  eexists. split; [exact Hl|]. split; [done|]. split; [done|].
  exists c, td, tf, d, dn, f, fast, refine,
    a00, a01, a02, a03, a10, a11, a12, a13, a20, a21, a22, a23, a30, a31, a32, a33,
    q0, q1, q2, q3.
  cbv zeta. repeat split; try done; apply Hi.
Qed.

(** C4, as the program has it.  The orientation of the pose is, component by
    component, the quaternion (w, x, y, z) that the library's conversion
    returns for the rotation block of the grasp transform: a function of that
    block, with the sign and the norm the library gave it.  The program
    applies no sign convention of its own. *)
Theorem orientation_is_the_library_quaternion g V w orig o T l w' :
  installed g V w → holds w orig o →
  compose_grasp_pose g orig T w = (Ok l, w') →
  ∃ Ti q0 q1 q2 q3 p,
    linalg_inv T = Ok Ti ∧
    from_rotation_matrix (rotation_block (matmul Ti (reference_grasp_value V)))
      = Ok (q0, q1, q2, q3) ∧
    heap w' !! l = Some (OPose p) ∧
    orientation (pose p) = {| qx := q1; qy := q2; qz := q3; qw := q0 |}.
Proof.
  intros Hi Ho Hcall.
  pose proof (compose_grasp_pose_cases g V w orig o T Hi Ho) as Hc. cbv zeta in Hc.
  rewrite Hcall in Hc. cbn [fst snd] in Hc.
  destruct (linalg_inv T) as [Ti|e]; [|by destruct Hc as [[=] _]].
  destruct Hc as [_ Hc].
  destruct (from_rotation_matrix _) as [[[[q0 q1] q2] q3]|e] eqn:Hq; [|done].
  destruct Hc as [[= ->] Hl].
  eexists Ti, q0, q1, q2, q3, _. split; [done|]. split; [exact Hq|]. split; [exact Hl|].
  unfold pose_of. by destruct (translation_column _) as [[t0 t1] t2].
Qed.

(** C5, as the program has it.  On a cloud of any size
    [preprocess_point_cloud] makes the three library calls in turn
    (downsampling, normals, descriptors) and raises exactly the exception of
    the first one that fails; when none fails it returns the new downsampled
    cloud with its normals and the new descriptors.  It looks at no point
    count and has no exception of its own. *)
Theorem preprocess_outcome_is_the_library_outcome w pcd c v rn rf :
  holds w pcd (OCloud c) →
  let r := preprocess_point_cloud pcd v rn rf w in
  match voxel_down_sample_of v c with
  | Err e => r.1 = Err e
  | Ok d =>
      match estimate_normals_of {| radius := rn; max_nn := 100 |} d with
      | Err e => r.1 = Err e
      | Ok dn =>
          match compute_fpfh_feature_of dn {| radius := rf; max_nn := 200 |} with
          | Err e => r.1 = Err e
          | Ok f =>
              r.1 = Ok (next w, S (next w)) ∧
              heap r.2 !! next w = Some (OCloud dn) ∧
              heap r.2 !! S (next w) = Some (OFeature f)
          end
      end
  end.
Proof. apply preprocess_point_cloud_cases. Qed.

(** C6, as the program has it.  [execute_fast_global_registration] prints
    its line and returns what the library's feature-matching registration
    returns for the two clouds and their descriptors, be it a result or an
    exception; it changes no object, counts no correspondence and has no
    exception of its own. *)
Theorem global_registration_outcome_is_the_library_outcome
    w s t sf tf d cs ct fs ft :
  heap w !! s = Some (OCloud cs) → heap w !! t = Some (OCloud ct) →
  heap w !! sf = Some (OFeature fs) → heap w !! tf = Some (OFeature ft) →
  let r := execute_fast_global_registration s t sf tf d w in
  r.1 = registration_fast_based_on_feature_matching_of cs ct fs ft
          {| maximum_correspondence_distance := d |} ∧
  heap r.2 = heap w ∧
  out r.2 = (out w ++ [Printed "[INFO] Fast global registration with fpfh features"])%list.
Proof.
  intros Hs Ht Hsf Htf r. unfold r.
  by rewrite (execute_fast_global_registration_run w s t sf tf d cs ct fs ft).
Qed.

(** C7, as the program has it.  The pose composition (lines 102-124) fails
    exactly when the library's matrix inversion or its quaternion conversion
    fails, with that exception; otherwise it returns a new pose, whatever the
    rotation block is: it makes no test of orthonormality.  Whether it
    returns or raises it changes no existing object: every address handed
    out before the call holds what it held, and the pose is at an address
    that held nothing.  Once the inverse is there it prints a line and draws
    a window, so it is not free of effects. *)
Theorem compose_grasp_pose_fails_as_the_library_fails g V w orig o T :
  installed g V w → holds w orig o →
  let r := compose_grasp_pose g orig T w in
  let ref := reference_grasp_value V in
  (∀ l, l < next w → heap r.2 !! l = heap w !! l) ∧
  (wf_world w →
   (∀ l o', heap w !! l = Some o' → heap r.2 !! l = Some o') ∧
   heap w !! S (next w) = None) ∧
  match linalg_inv T with
  | Err e => r.1 = Err e ∧ out r.2 = out w
  | Ok Ti =>
      out r.2 = (out w ++ shown V o (matmul Ti ref))%list ∧
      match from_rotation_matrix (rotation_block (matmul Ti ref)) with
      | Err e => r.1 = Err e
      | Ok q =>
          r.1 = Ok (S (next w)) ∧
          heap r.2 !! S (next w) = Some (OPose (pose_of (pose_msg_value V) (matmul Ti ref) q))
      end
  end.
Proof.
  intros Hi Ho r ref.
  destruct (fresh_compose_grasp_pose (next w) g orig T w (le_n _)) as [(_ & Hsame & _) _].
  split; [exact Hsame|]. split; [|by apply compose_grasp_pose_cases].
  intros Hwf. split.
  - intros l o' Hl. fold r in Hsame. rewrite Hsame; [done|]. by eapply Hwf.
  - destruct (heap w !! S (next w)) as [o'|] eqn:Hl; [|done]. apply Hwf in Hl. lia.
Qed.

(** C8.  In every world the process reaches after the import, the globals
    (calibration matrices, bounding box, frames, target cloud, its
    downsampled form and descriptors, displacement, message template) hold
    the values computed at the import; a call to [get_target_grasp_pose],
    whether it returns or raises, leaves them and every other existing object
    as they were, and the pose it returns is an object that did not exist
    before the call. *)
Theorem globals_are_fixed_at_import files g w :
  running files g w →
  ∃ b tdown tfpfh,
    computed_at_import files b tdown tfpfh ∧
    installed g (initial_values files b tdown tfpfh) w ∧
    ∀ source_pcd,
      let r := get_target_grasp_pose g source_pcd w in
      installed g (initial_values files b tdown tfpfh) r.2 ∧
      (∀ l o, heap w !! l = Some o → heap r.2 !! l = Some o) ∧
      (∀ p, r.1 = Ok p → heap w !! p = None).
Proof.
  intros Hrun.
  destruct (running_invariant files g w Hrun) as (Hwf & _ & b & td & tf & Hc & Hi).
  exists b, td, tf. split; [done|]. split; [done|]. intros source_pcd r.
  destruct (fresh_get_target_grasp_pose (next w) g source_pcd w (le_n _)) as [Hf Hp].
  fold r in Hf, Hp. split; [by eapply installed_frame|]. split.
  - intros l o Hl. destruct Hf as (_ & Hsame & _). rewrite Hsame; [done|]. by eapply Hwf.
  - intros p Hr. apply Hp in Hr.
    destruct (heap w !! p) as [o|] eqn:Hl; [|done]. apply Hwf in Hl. lia.
Qed.

(** C9.  [preprocess_point_cloud] leaves the cloud it is given, points,
    normals and colours, as it was, as it leaves every other existing object;
    it prints and draws nothing; the downsampled cloud and the descriptors it
    returns are objects that did not exist before the call. *)
Theorem preprocess_leaves_its_input w pcd v rn rf :
  wf_world w →
  let r := preprocess_point_cloud pcd v rn rf w in
  (∀ c, heap w !! pcd = Some (OCloud c) → heap r.2 !! pcd = Some (OCloud c)) ∧
  (∀ l o, heap w !! l = Some o → heap r.2 !! l = Some o) ∧
  out r.2 = out w ∧
  (∀ d f, r.1 = Ok (d, f) → heap w !! d = None ∧ heap w !! f = None).
Proof.
  intros Hwf r.
  destruct (fresh_preprocess_point_cloud (next w) pcd v rn rf w (le_n _)) as [Hf Hp].
  fold r in Hf, Hp. destruct Hf as (_ & Hsame & _).
  assert (Hold : ∀ l o, heap w !! l = Some o → heap r.2 !! l = Some o).
  { intros l o Hl. rewrite Hsame; [done|]. by eapply Hwf. }
  split; [by intros c; apply Hold|]. split; [done|].
  split; [apply preprocess_point_cloud_silent|].
  intros d f Hr. apply Hp in Hr as [Hd Hf].
  split.
  - destruct (heap w !! d) as [o|] eqn:Hl; [|done]. apply Hwf in Hl. lia.
  - destruct (heap w !! f) as [o|] eqn:Hl; [|done]. apply Hwf in Hl. lia.
Qed.

(** C10.  The displacement is an array of its own holding the values of the
    base-to-camera calibration matrix.  A call that returns has preprocessed
    and registered the source cloud in the robot frame moved by the
    displacement, and the transformation from source to target that it
    inverts to place the grasp is the refined registration transformation
    multiplied by the displacement, the product written out here entry by
    entry.  Where sums and products are exact, that product applied to
    coordinates (x, y, z, u) of the robot frame is the refined registration
    applied to what the displacement makes of them: it takes the coordinates
    from before the displacement to the target, through the displaced
    coordinates the registration ran on. *)
Theorem reported_transform_includes_the_displacement files g w source_pcd l w'
    d00 d01 d02 d03 d10 d11 d12 d13 d20 d21 d22 d23 d30 d31 d32 d33 :
  running files g w →
  transform_base_to_cam_fine_tuned_npy files =
    ((d00, d01, d02, d03), (d10, d11, d12, d13), (d20, d21, d22, d23), (d30, d31, d32, d33)) →
  get_target_grasp_pose g source_pcd w = (Ok l, w') →
  let displacement := transform_base_to_cam_fine_tuned_npy files in
  let cam_to_base := transform_cam_to_base_fine_tuned_npy files in
  let ref := transform_base_to_reference_grasp_npy files in
  heap w !! init_transformation_for_global_registration g
    = Some (OArray displacement) ∧
  init_transformation_for_global_registration g
    ≠ transform_base_to_cam_hand_calibrated g ∧
  ∃ c tdown tfpfh down dn f fast refine Ti q
    r00 r01 r02 r03 r10 r11 r12 r13 r20 r21 r22 r23 r30 r31 r32 r33,
    heap w !! source_pcd = Some (OCloud c) ∧
    heap w !! target_down g = Some (OCloud tdown) ∧
    heap w !! target_fpfh g = Some (OFeature tfpfh) ∧
    voxel_down_sample_of VOXEL_SIZE
      (transform_cloud displacement (transform_cloud cam_to_base (paint blue c)))
      = Ok down ∧
    estimate_normals_of normal_search down = Ok dn ∧
    compute_fpfh_feature_of dn feature_search = Ok f ∧
    registration_fast_based_on_feature_matching_of dn tdown f tfpfh
      {| maximum_correspondence_distance := GLOBAL_DISTANCE_THRESHOLD |} = Ok fast ∧
    registration_icp_of dn tdown ICP_REFINE_DISTANCE_THRESHOLD
      (transformation fast) TransformationEstimationPointToPlane = Ok refine ∧
    transformation refine =
      ((r00, r01, r02, r03), (r10, r11, r12, r13), (r20, r21, r22, r23), (r30, r31, r32, r33)) ∧
    let t00 := sum_of_products r00 d00 r01 d10 r02 d20 r03 d30 in
    let t01 := sum_of_products r00 d01 r01 d11 r02 d21 r03 d31 in
    let t02 := sum_of_products r00 d02 r01 d12 r02 d22 r03 d32 in
    let t03 := sum_of_products r00 d03 r01 d13 r02 d23 r03 d33 in
    let t10 := sum_of_products r10 d00 r11 d10 r12 d20 r13 d30 in
    let t11 := sum_of_products r10 d01 r11 d11 r12 d21 r13 d31 in
    let t12 := sum_of_products r10 d02 r11 d12 r12 d22 r13 d32 in
    let t13 := sum_of_products r10 d03 r11 d13 r12 d23 r13 d33 in
    let t20 := sum_of_products r20 d00 r21 d10 r22 d20 r23 d30 in
    let t21 := sum_of_products r20 d01 r21 d11 r22 d21 r23 d31 in
    let t22 := sum_of_products r20 d02 r21 d12 r22 d22 r23 d32 in
    let t23 := sum_of_products r20 d03 r21 d13 r22 d23 r23 d33 in
    let t30 := sum_of_products r30 d00 r31 d10 r32 d20 r33 d30 in
    let t31 := sum_of_products r30 d01 r31 d11 r32 d21 r33 d31 in
    let t32 := sum_of_products r30 d02 r31 d12 r32 d22 r33 d32 in
    let t33 := sum_of_products r30 d03 r31 d13 r32 d23 r33 d33 in
    matmul (transformation refine) displacement =
      ((t00, t01, t02, t03), (t10, t11, t12, t13), (t20, t21, t22, t23), (t30, t31, t32, t33)) ∧
    linalg_inv ((t00, t01, t02, t03), (t10, t11, t12, t13),
                (t20, t21, t22, t23), (t30, t31, t32, t33)) = Ok Ti ∧
    linalg_inv (matmul (transformation refine) displacement) = Ok Ti ∧
    from_rotation_matrix (rotation_block (matmul Ti ref)) = Ok q ∧
    heap w' !! l = Some (OPose (pose_of PoseStamped_new (matmul Ti ref) q)) ∧
    ∀ same : F → F → Prop, exact_up_to same → ∀ x y z u,
      same (sum_of_products t00 x t01 y t02 z t03 u)
        (sum_of_products
            r00 (sum_of_products d00 x d01 y d02 z d03 u)
            r01 (sum_of_products d10 x d11 y d12 z d13 u)
            r02 (sum_of_products d20 x d21 y d22 z d23 u)
            r03 (sum_of_products d30 x d31 y d32 z d33 u)) ∧
      same (sum_of_products t10 x t11 y t12 z t13 u)
        (sum_of_products
            r10 (sum_of_products d00 x d01 y d02 z d03 u)
            r11 (sum_of_products d10 x d11 y d12 z d13 u)
            r12 (sum_of_products d20 x d21 y d22 z d23 u)
            r13 (sum_of_products d30 x d31 y d32 z d33 u)) ∧
      same (sum_of_products t20 x t21 y t22 z t23 u)
        (sum_of_products
            r20 (sum_of_products d00 x d01 y d02 z d03 u)
            r21 (sum_of_products d10 x d11 y d12 z d13 u)
            r22 (sum_of_products d20 x d21 y d22 z d23 u)
            r23 (sum_of_products d30 x d31 y d32 z d33 u)) ∧
      same (sum_of_products t30 x t31 y t32 z t33 u)
        (sum_of_products
            r30 (sum_of_products d00 x d01 y d02 z d03 u)
            r31 (sum_of_products d10 x d11 y d12 z d13 u)
            r32 (sum_of_products d20 x d21 y d22 z d23 u)
            r33 (sum_of_products d30 x d31 y d32 z d33 u)).
Proof.
  intros Hrun Hdis Hcall displacement cam_to_base ref.
  destruct (running_invariant files g w Hrun) as (Hwf & Hne & b & td & tf & _ & Hi).
  destruct (get_target_grasp_pose_inv w g _ source_pcd l w' Hi Hwf Hcall)
    as (c & d & dn & f & fast & refine & Ti & q
        & Hs & Hd & Hdn & Hf & Hfast & Hicp & HTi & Hq & Hl).
  cbn [init_transformation_value cam_to_base_value target_down_value target_fpfh_value
       reference_grasp_value pose_msg_value initial_values] in *.
  split; [apply Hi|]. split; [done|].
  destruct (transformation refine) as
    [[[[[[r00 r01] r02] r03] [[[r10 r11] r12] r13]]
      [[[r20 r21] r22] r23]] [[[r30 r31] r32] r33]] eqn:Hr.
  assert (Hprod :
    matmul ((r00, r01, r02, r03), (r10, r11, r12, r13),
            (r20, r21, r22, r23), (r30, r31, r32, r33)) displacement
    = ((sum_of_products r00 d00 r01 d10 r02 d20 r03 d30,
        sum_of_products r00 d01 r01 d11 r02 d21 r03 d31,
        sum_of_products r00 d02 r01 d12 r02 d22 r03 d32,
        sum_of_products r00 d03 r01 d13 r02 d23 r03 d33),
       (sum_of_products r10 d00 r11 d10 r12 d20 r13 d30,
        sum_of_products r10 d01 r11 d11 r12 d21 r13 d31,
        sum_of_products r10 d02 r11 d12 r12 d22 r13 d32,
        sum_of_products r10 d03 r11 d13 r12 d23 r13 d33),
       (sum_of_products r20 d00 r21 d10 r22 d20 r23 d30,
        sum_of_products r20 d01 r21 d11 r22 d21 r23 d31,
        sum_of_products r20 d02 r21 d12 r22 d22 r23 d32,
        sum_of_products r20 d03 r21 d13 r22 d23 r23 d33),
       (sum_of_products r30 d00 r31 d10 r32 d20 r33 d30,
        sum_of_products r30 d01 r31 d11 r32 d21 r33 d31,
        sum_of_products r30 d02 r31 d12 r32 d22 r33 d32,
        sum_of_products r30 d03 r31 d13 r32 d23 r33 d33)))
    by (unfold displacement; by rewrite Hdis).
  exists c, td, tf, d, dn, f, fast, refine, Ti, q,
    r00, r01, r02, r03, r10, r11, r12, r13, r20, r21, r22, r23, r30, r31, r32, r33.
  cbv zeta. rewrite Hr.
  split; [done|]. split; [apply Hi|]. split; [apply Hi|].
  split; [done|]. split; [done|]. split; [done|]. split; [done|]. split; [done|].
  split; [done|]. split; [exact Hprod|]. split; [by rewrite <- Hprod|].
  split; [done|]. split; [done|]. split; [done|].
  intros same Hex x y z u. repeat split; apply (row_of_product_applied same Hex).
Qed.

End Claims.

(** * Beyond the claims: the call as a whole, consecutive calls, the import *)

Section Further.
Context `{GeometryProvider}.

(** X2.  A call on a point cloud fails exactly when one of the seven library
    calls it depends on fails (downsampling, normals, descriptors, global
    registration, refinement, matrix inversion, quaternion conversion), with
    the exception of the first that fails, having printed the lines of the
    stages it got through.  When none fails it has printed both registration
    lines and the visualisation line, has drawn the robot frame, the grasp
    frame, the whole source cloud in the robot frame and the target, and
    returns a new pose. *)
Theorem call_raises_what_the_first_failing_library_call_raises g V w source_pcd c :
  installed g V w → holds w source_pcd (OCloud c) →
  let r := get_target_grasp_pose g source_pcd w in
  let in_base := transform_cloud (cam_to_base_value V) (paint blue c) in
  let moved := transform_cloud (init_transformation_value V) in_base in
  let ref := reference_grasp_value V in
  match voxel_down_sample_of VOXEL_SIZE moved with
  | Err e => r.1 = Err e ∧ out r.2 = out w
  | Ok down =>
  match estimate_normals_of normal_search down with
  | Err e => r.1 = Err e ∧ out r.2 = out w
  | Ok dn =>
  match compute_fpfh_feature_of dn feature_search with
  | Err e => r.1 = Err e ∧ out r.2 = out w
  | Ok f =>
  match registration_fast_based_on_feature_matching_of dn (target_down_value V) f
          (target_fpfh_value V)
          {| maximum_correspondence_distance := GLOBAL_DISTANCE_THRESHOLD |} with
  | Err e => r.1 = Err e ∧ out r.2 = (out w ++ [fgr_line])%list
  | Ok fast =>
  match registration_icp_of dn (target_down_value V) ICP_REFINE_DISTANCE_THRESHOLD
          (transformation fast) TransformationEstimationPointToPlane with
  | Err e => r.1 = Err e ∧ out r.2 = (out w ++ [fgr_line; icp_line])%list
  | Ok refine =>
  match linalg_inv (matmul (transformation refine) (init_transformation_value V)) with
  | Err e => r.1 = Err e ∧ out r.2 = (out w ++ [fgr_line; icp_line])%list
  | Ok Ti =>
      out r.2 = (out w ++ [fgr_line; icp_line] ++ shown V (OCloud in_base) (matmul Ti ref))%list ∧
      match from_rotation_matrix (rotation_block (matmul Ti ref)) with
      | Err e => r.1 = Err e
      | Ok q =>
          r.1 = Ok (6 + next w) ∧
          heap r.2 !! (6 + next w) = Some (OPose (pose_of (pose_msg_value V) (matmul Ti ref) q))
      end
  end end end end end end.
Proof. apply get_target_grasp_pose_cases. Qed.

(** X4.  The poses two consecutive calls return are two objects, neither of
    them the message template [pose_msg]; the second call leaves the first
    pose as it was, and the template is still the default message. *)
Theorem returned_poses_are_separate_objects files g w s1 s2 p1 p2 w1 w2 :
  running files g w →
  get_target_grasp_pose g s1 w = (Ok p1, w1) →
  get_target_grasp_pose g s2 w1 = (Ok p2, w2) →
  p1 ≠ p2 ∧ p1 ≠ pose_msg g ∧ p2 ≠ pose_msg g ∧
  heap w2 !! p1 = heap w1 !! p1 ∧
  heap w2 !! pose_msg g = Some (OPose PoseStamped_new).
Proof.
  intros Hrun Hc1 Hc2.
  assert (Hrun1 : running files g w1).
  { replace w1 with (get_target_grasp_pose g s1 w).2 by (by rewrite Hc1).
    by apply running_call. }
  assert (Hrun2 : running files g w2).
  { replace w2 with (get_target_grasp_pose g s2 w1).2 by (by rewrite Hc2).
    by apply running_call. }
  destruct (running_invariant files g w Hrun) as (Hwf & _ & b & td & tf & _ & Hi).
  destruct (running_invariant files g w1 Hrun1) as (Hwf1 & _ & b1 & td1 & tf1 & _ & Hi1).
  destruct (running_invariant files g w2 Hrun2) as (_ & _ & b2 & td2 & tf2 & _ & Hi2).
  destruct (get_target_grasp_pose_inv w g _ s1 p1 w1 Hi Hwf Hc1)
    as (? & ? & ? & ? & ? & ? & ? & ? & _ & _ & _ & _ & _ & _ & _ & _ & Hp1).
  destruct (fresh_get_target_grasp_pose (next w) g s1 w (le_n _)) as [_ Hf1].
  destruct (fresh_get_target_grasp_pose (next w1) g s2 w1 (le_n _)) as [Hfr Hf2].
  rewrite Hc1 in Hf1. rewrite Hc2 in Hf2, Hfr. cbn [fst snd] in *.
  specialize (Hf1 p1 eq_refl). specialize (Hf2 p2 eq_refl).
  apply Hwf1 in Hp1 as Hlt1.
  destruct (inst_pose_msg _ _ _ Hi) as [_ Hm]. destruct (inst_pose_msg _ _ _ Hi1) as [_ Hm1].
  split; [lia|]. split; [lia|]. split; [lia|].
  split; [by apply Hfr|]. apply Hi2.
Qed.

(** X6.  Importing the module prints nothing and leaves every existing
    object as it was.  It fails exactly when the library fails to build the
    workspace box or to downsample the target, estimate its normals or
    compute its descriptors, with that exception; otherwise its globals are
    eleven new objects at consecutive addresses, holding the loaded matrices,
    the box, the two frames, the target in the robot frame, its downsampled
    form and descriptors, a copy of the base-to-camera matrix and the default
    message. *)
Theorem import_outcome files w0 :
  let r := module_init files w0 in
  out r.2 = out w0 ∧
  (∀ l, l < next w0 → heap r.2 !! l = heap w0 !! l) ∧
  match create_from_points_of (workspace_bounding_box_array_in_base_npy files) with
  | Err e => r.1 = Err e
  | Ok b =>
  match voxel_down_sample_of VOXEL_SIZE (target_in_base files) with
  | Err e => r.1 = Err e
  | Ok d =>
  match estimate_normals_of normal_search d with
  | Err e => r.1 = Err e
  | Ok tdown =>
  match compute_fpfh_feature_of tdown feature_search with
  | Err e => r.1 = Err e
  | Ok tfpfh =>
      ∃ g, r.1 = Ok g ∧ addresses g = List.seq (next w0) 11 ∧
           installed g (initial_values files b tdown tfpfh) r.2
  end end end end.
Proof.
  intros r. destruct (module_init_cases files w0) as [Hout Hcases].
  split; [exact Hout|]. split; [|exact Hcases].
  destruct (fresh_module_init (next w0) files w0 (le_n _)) as [(_ & Hsame & _) _].
  exact Hsame.
Qed.
End Further.

(** * The claims on the scene *)

Section SceneFacts.
#[local] Existing Instance rational.
#[local] Existing Instance sparse.

Lemma empty_world_wf : wf_world empty_world.
Proof. intros l o. cbn. by rewrite lookup_empty. Qed.

Lemma run_eta {A} (x : result A * world) a : x.1 = Ok a → x = (Ok a, x.2).
Proof. destruct x as [r w]. cbn. by intros ->. Qed.

Lemma scene_running : running scene_files scene_globals scene_world.
Proof.
  unfold scene_world. do 2 apply running_new.
  apply (running_import _ _ empty_world); [apply empty_world_wf|].
  apply run_eta. reflexivity.
Qed.

Lemma ok_not_raises {A} cls (r : result A) a : r = Ok a → ¬ raises cls r.
Proof. intros -> (e & He & _). discriminate. Qed.

Lemma holds_intro (w : world) l o :
  heap w !! l = Some o → (l <? next w) = true → holds w l o.
Proof. intros Hl Hlt. split; [done|]. by apply Nat.ltb_lt. Qed.

Lemma scene_installed : installed scene_globals scene_values scene_world.
Proof. split; by apply holds_intro. Qed.

Lemma scene_source_held : holds scene_world 11 (OCloud scene_source).
Proof. by apply holds_intro. Qed.

Lemma single_point_held : holds scene_world 12 (OCloud single_point).
Proof. by apply holds_intro. Qed.

Lemma scene_world_wf : wf_world scene_world.
Proof. apply (running_invariant _ _ _ scene_running). Qed.

(** C1, at a capture with a point outside the workspace.  After lines 82-88
    the cloud bound to [source_pcd_to_process] (object 14) still holds the
    point (5, 0, 0), which the workspace box (object 3) does not contain; the
    cropped cloud is another object (15), bound to no name.  The call goes on
    with both points: the downsampled cloud it registers (object 16) holds
    (0, -4, 0), the image of (5, 0, 0) under the displacement. *)
Theorem cropped_cloud_is_dropped_on_scene :
  let r := prepare_source scene_globals 11 scene_world in
  let call := get_target_grasp_pose scene_globals 11 scene_world in
  heap scene_world !! 3 = Some (OBox scene_box (0, 1, 0)%Q) ∧
  r.1 = Ok (13, 14) ∧
  heap r.2 !! 14 =
    Some (OCloud {| points := [(1 # 2, 0, 0); (5, 0, 0)]%Q; normals := [];
                    colors := [(0, 0, 1); (0, 0, 1)]%Q |}) ∧
  within scene_box (5, 0, 0)%Q = false ∧
  heap r.2 !! 15 =
    Some (OCloud {| points := [(1 # 2, 0, 0)]%Q; normals := [];
                    colors := [(0, 0, 1)]%Q |}) ∧
  call.1 = Ok 19 ∧
  heap call.2 !! 16 =
    Some (OCloud {| points := [(0, 1 # 2, 0); (0, -4, 0)]%Q;
                    normals := [(0, 0, 1); (0, 0, 1)]%Q;
                    colors := [(0, 0, 1); (0, 0, 1)]%Q |}) ∧
  transform_point (transform_base_to_cam_fine_tuned_npy scene_files) (5, 0, 0)%Q
    = (0, -4, 0)%Q.
Proof. repeat split. Qed.

(** Lines 82-88 on the scene: the copy to process is the copy in the robot
    frame, point for point. *)
Lemma prepare_source_on_scene :
  installed scene_globals scene_values scene_world ∧
  holds scene_world 11 (OCloud scene_source) ∧
  let in_base :=
    transform_cloud (cam_to_base_value scene_values) (paint blue scene_source) in
  let r := prepare_source scene_globals 11 scene_world in
  r.1 = Ok (next scene_world, S (next scene_world)) ∧
  heap r.2 !! next scene_world = Some (OCloud in_base) ∧
  heap r.2 !! S (next scene_world) = Some (OCloud in_base) ∧
  heap r.2 !! S (S (next scene_world))
    = Some (OCloud (crop_cloud (box_value scene_values) in_base)).
Proof.
  split; [exact scene_installed|]. split; [exact scene_source_held|].
  exact (prepare_source_run scene_globals scene_values scene_world 11 scene_source
           scene_installed scene_source_held).
Defined.

(** C2 on the scene.  Composing from the transformation that doubles
    lengths gives the product of its inverse, which halves them, and the
    reference grasp: position (1/4, 0, 1/8).  Composing from the identity
    gives the reference grasp itself, position (1/2, 0, 1/4) and quaternion
    (-3/5, 4/5, 0, 0); the rationals of the reference matrix are ordinary,
    the negative ones too. *)
Lemma grasp_transform_on_scene :
  installed scene_globals scene_values scene_world ∧
  holds scene_world 11 (OCloud scene_source) ∧
  Forall (ordinary (λ z : F, z = 0%Q)) (mat4_entries scene_reference) ∧
  (doubling_call.1 = Ok 14 ∧
   heap doubling_call.2 !! 14 = Some (OPose doubled_pose) ∧
   out doubling_call.2 =
     (out scene_world
        ++ shown scene_values (OCloud scene_source)
             ((1 # 2, 0, 0, 1 # 4), (0, -7 # 50, 12 # 25, 0),
              (0, -12 # 25, -7 # 50, 1 # 8), (0, 0, 0, 1))%Q)%list) ∧
  (identity_call.1 = Ok 14 ∧
   heap identity_call.2 !! 14 = Some (OPose scene_grasp_pose)).
Proof.
  assert (Hord : Forall (ordinary (λ z : F, z = 0%Q)) (mat4_entries scene_reference)).
  { repeat (apply Forall_cons; split;
              [split; [reflexivity|split; [reflexivity|by intros ? ->]]|]).
    constructor. }
  split; [exact scene_installed|]. split; [exact scene_source_held|].
  split; [exact Hord|]. split.
  - exact (proj1 (grasp_transform_is_inverse_times_reference
                    scene_globals scene_values scene_world 11 (OCloud scene_source) doubling
                    1%Q 0%Q 0%Q (1 # 2)%Q
                    0%Q (-7 # 25)%Q (24 # 25)%Q 0%Q
                    0%Q (-24 # 25)%Q (-7 # 25)%Q (1 # 4)%Q
                    0%Q 0%Q 0%Q 1%Q
                    scene_installed scene_source_held eq_refl)
             (1 # 2)%Q 0%Q 0%Q 0%Q 0%Q (1 # 2)%Q 0%Q 0%Q 0%Q 0%Q (1 # 2)%Q 0%Q 0%Q 0%Q 0%Q 1%Q
             (-800000000000000 # 1685312368013057)%Q
             (4450000000000000 # 5055937104039171)%Q 0%Q 0%Q eq_refl eq_refl).
  - refine (proj2 (grasp_transform_is_inverse_times_reference
                    scene_globals scene_values scene_world 11 (OCloud scene_source) identity4
                    1%Q 0%Q 0%Q (1 # 2)%Q
                    0%Q (-7 # 25)%Q (24 # 25)%Q 0%Q
                    0%Q (-24 # 25)%Q (-7 # 25)%Q (1 # 4)%Q
                    0%Q 0%Q 0%Q 1%Q
                    scene_installed scene_source_held eq_refl)
              (λ z : F, z = 0%Q) (-3 # 5)%Q (4 # 5)%Q 0%Q 0%Q eq_refl eq_refl _ Hord eq_refl).
    by intros y z -> ->.
Defined.

(** C3 on the scene: the pose the call returns has the empty frame
    identifier. *)
Lemma returned_pose_header_on_scene :
  running scene_files scene_globals scene_world ∧
  ∃ p, heap (get_target_grasp_pose scene_globals 11 scene_world).2 !! 19 = Some (OPose p) ∧
       frame_id (header p) = "".
Proof.
  split; [exact scene_running|].
  destruct (returned_pose_has_the_header_of_pose_msg scene_files scene_globals scene_world 11 19
              (get_target_grasp_pose scene_globals 11 scene_world).2
              1%Q 0%Q 0%Q (1 # 2)%Q
              0%Q (-7 # 25)%Q (24 # 25)%Q 0%Q
              0%Q (-24 # 25)%Q (-7 # 25)%Q (1 # 4)%Q
              0%Q 0%Q 0%Q 1%Q
              scene_running eq_refl)
    as (p & Hp & _ & Hid & _).
  - apply run_eta. reflexivity.
  - exists p. split; [exact Hp | exact Hid].
Defined.

(** Against C3 as stated: the call on the scene returns a pose whose frame
    identifier is the empty string, which names no frame. *)
Lemma scene_pose_names_no_frame :
  (get_target_grasp_pose scene_globals 11 scene_world).1 = Ok 19 ∧
  heap (get_target_grasp_pose scene_globals 11 scene_world).2 !! 19 = Some (OPose scene_pose) ∧
  frame_id (header scene_pose) = "".
Proof.
  repeat split.
Qed.

(** C4 on the scene: the orientation composed from the identity is the
    library's quaternion of the reference rotation. *)
Lemma orientation_on_scene :
  installed scene_globals scene_values scene_world ∧
  holds scene_world 11 (OCloud scene_source) ∧
  identity_call = (Ok 14, identity_call.2) ∧
  ∃ Ti q0 q1 q2 q3 p,
    linalg_inv identity4 = Ok Ti ∧
    from_rotation_matrix (rotation_block (matmul Ti scene_reference)) = Ok (q0, q1, q2, q3) ∧
    heap identity_call.2 !! 14 = Some (OPose p) ∧
    orientation (pose p) = {| qx := q1; qy := q2; qz := q3; qw := q0 |}.
Proof.
  assert (Hcall : identity_call = (Ok 14, identity_call.2)) by (by apply run_eta).
  split; [exact scene_installed|]. split; [exact scene_source_held|].
  split; [exact Hcall|].
  exact (orientation_is_the_library_quaternion scene_globals scene_values scene_world 11
           (OCloud scene_source) identity4 14 identity_call.2
           scene_installed scene_source_held Hcall).
Defined.

(** Against C4 as stated: the rotation block of the grasp transform is
    orthonormal and the scalar part of the quaternion in the pose is -3/5. *)
Lemma scalar_part_is_negative_on_scene :
  orthonormal3 (rotation_block (matmul identity4 scene_reference)) = true ∧
  identity_call.1 = Ok 14 ∧
  heap identity_call.2 !! 14 = Some (OPose scene_grasp_pose) ∧
  (qw (orientation (pose scene_grasp_pose)) < 0)%Q.
Proof. repeat split. Qed.

(** C5 on the scene: the capture with a single point is downsampled, gets
    its normal and its descriptor. *)
Lemma preprocess_outcome_on_scene :
  holds scene_world 12 (OCloud single_point) ∧
  single_point_call.1 = Ok (13, 14) ∧
  heap single_point_call.2 !! 13 = Some (OCloud single_point_down) ∧
  heap single_point_call.2 !! 14 = Some (OFeature [replicate 33 0%Q]).
Proof.
  split; [exact single_point_held|].
  exact (preprocess_outcome_is_the_library_outcome scene_world 12 single_point
           VOXEL_SIZE RADIUS_NORMAL RADIUS_FEATURE single_point_held).
Defined.

(** Against C5 as stated: a cloud of one point, fewer than the three a
    normal needs, is preprocessed; nothing is raised. *)
Lemma single_point_is_preprocessed :
  length (points single_point) = 1 ∧
  heap scene_world !! 12 = Some (OCloud single_point) ∧
  single_point_call.1 = Ok (13, 14) ∧
  ¬ raises "InsufficientPoints" single_point_call.1.
Proof.
  split; [reflexivity|]. split; [reflexivity|]. split; [reflexivity|].
  by apply (ok_not_raises _ _ (13, 14)).
Qed.

(** C6 on the scene: the registration of the single point against the
    target is what the library returns for them. *)
Lemma global_registration_outcome_on_scene :
  heap single_point_call.2 !! 13 = Some (OCloud single_point_down) ∧
  heap single_point_call.2 !! 7 = Some (OCloud scene_target_down) ∧
  heap single_point_call.2 !! 14 = Some (OFeature [replicate 33 0%Q]) ∧
  heap single_point_call.2 !! 8 = Some (OFeature scene_target_fpfh) ∧
  single_point_registration.1 =
    registration_fast_based_on_feature_matching_of single_point_down scene_target_down
      [replicate 33 0%Q] scene_target_fpfh
      {| maximum_correspondence_distance := GLOBAL_DISTANCE_THRESHOLD |} ∧
  heap single_point_registration.2 = heap single_point_call.2 ∧
  out single_point_registration.2 =
    (out single_point_call.2
       ++ [Printed "[INFO] Fast global registration with fpfh features"])%list.
Proof.
  assert (H13 : heap single_point_call.2 !! 13 = Some (OCloud single_point_down))
    by reflexivity.
  assert (H7 : heap single_point_call.2 !! 7 = Some (OCloud scene_target_down))
    by reflexivity.
  assert (H14 : heap single_point_call.2 !! 14 = Some (OFeature [replicate 33 0%Q]))
    by reflexivity.
  assert (H8 : heap single_point_call.2 !! 8 = Some (OFeature scene_target_fpfh))
    by reflexivity.
  split; [exact H13|]. split; [exact H7|]. split; [exact H14|]. split; [exact H8|].
  exact (global_registration_outcome_is_the_library_outcome single_point_call.2
           13 7 14 8 GLOBAL_DISTANCE_THRESHOLD _ _ _ _ H13 H7 H14 H8).
Defined.

(** Against C6 as stated: with a source of one point there are fewer than
    three matches, and the registration returns a result, with no
    correspondence; nothing is raised. *)
Lemma single_point_is_registered :
  heap single_point_call.2 !! 13 = Some (OCloud single_point_down) ∧
  length (points single_point_down) = 1 ∧
  single_point_registration.1 = Ok centred ∧
  correspondence_set centred = [] ∧
  ¬ raises "InsufficientCorrespondences" single_point_registration.1.
Proof.
  split; [reflexivity|]. split; [reflexivity|]. split; [reflexivity|].
  split; [reflexivity|]. by apply (ok_not_raises _ _ centred).
Qed.

(** C7 on the scene: composing from the transformation that doubles
    lengths prints, draws and returns a pose, at an address that held
    nothing, and leaves the thirteen existing objects as they were. *)
Lemma compose_outcome_on_scene :
  installed scene_globals scene_values scene_world ∧
  holds scene_world 11 (OCloud scene_source) ∧
  wf_world scene_world ∧
  (∀ l, l < next scene_world → heap doubling_call.2 !! l = heap scene_world !! l) ∧
  (∀ l o', heap scene_world !! l = Some o' → heap doubling_call.2 !! l = Some o') ∧
  heap scene_world !! S (next scene_world) = None ∧
  out doubling_call.2 =
    (out scene_world
       ++ shown scene_values (OCloud scene_source)
            (matmul ((1 # 2, 0, 0, 0), (0, 1 # 2, 0, 0), (0, 0, 1 # 2, 0), (0, 0, 0, 1))%Q
               scene_reference))%list ∧
  doubling_call.1 = Ok 14 ∧
  heap doubling_call.2 !! 14 = Some (OPose doubled_pose).
Proof.
  pose proof (compose_grasp_pose_fails_as_the_library_fails scene_globals scene_values
                scene_world 11 (OCloud scene_source) doubling scene_installed scene_source_held)
    as H.
  split; [exact scene_installed|]. split; [exact scene_source_held|].
  split; [exact scene_world_wf|]. split; [exact (proj1 H)|].
  split; [exact (proj1 (proj1 (proj2 H) scene_world_wf))|].
  split; [exact (proj2 (proj1 (proj2 H) scene_world_wf))|].
  exact (proj2 (proj2 H)).
Defined.

(** Against C7 as stated: the rotation block of the transformation that
    doubles lengths is not orthonormal, and the composition returns a pose
    after it printed a line and drew a window; nothing is raised. *)
Lemma doubling_yields_a_pose :
  orthonormal3 (rotation_block doubling) = false ∧
  doubling_call.1 = Ok 14 ∧
  heap doubling_call.2 !! 14 = Some (OPose doubled_pose) ∧
  out scene_world = [] ∧
  out doubling_call.2 !! 0 = Some (Printed "[INFO] Visualizing the found grasping pose") ∧
  length (out doubling_call.2) = 2 ∧
  ¬ raises "InvalidTransform" doubling_call.1.
Proof.
  split; [reflexivity|]. split; [reflexivity|]. split; [reflexivity|].
  split; [reflexivity|]. split; [reflexivity|]. split; [reflexivity|].
  by apply (ok_not_raises _ _ 14).
Qed.

(** C8 on the scene. *)
Lemma globals_fixed_on_scene :
  running scene_files scene_globals scene_world ∧
  ∃ b tdown tfpfh,
    computed_at_import scene_files b tdown tfpfh ∧
    installed scene_globals (initial_values scene_files b tdown tfpfh) scene_world ∧
    ∀ source_pcd,
      let r := get_target_grasp_pose scene_globals source_pcd scene_world in
      installed scene_globals (initial_values scene_files b tdown tfpfh) r.2 ∧
      (∀ l o, heap scene_world !! l = Some o → heap r.2 !! l = Some o) ∧
      (∀ p, r.1 = Ok p → heap scene_world !! p = None).
Proof.
  split; [exact scene_running|].
  exact (globals_are_fixed_at_import scene_files scene_globals scene_world scene_running).
Defined.

(** C9 on the scene: preprocessing the capture with two points. *)
Lemma preprocess_leaves_scene_input :
  wf_world scene_world ∧
  let r := preprocess_point_cloud 11 VOXEL_SIZE RADIUS_NORMAL RADIUS_FEATURE scene_world in
  (∀ c, heap scene_world !! 11 = Some (OCloud c) → heap r.2 !! 11 = Some (OCloud c)) ∧
  (∀ l o, heap scene_world !! l = Some o → heap r.2 !! l = Some o) ∧
  out r.2 = out scene_world ∧
  (∀ d f, r.1 = Ok (d, f) → heap scene_world !! d = None ∧ heap scene_world !! f = None).
Proof.
  split; [exact scene_world_wf|].
  exact (preprocess_leaves_its_input scene_world 11 VOXEL_SIZE RADIUS_NORMAL RADIUS_FEATURE
           scene_world_wf).
Defined.

(** C10 on the scene: the displacement is object 9, the calibration matrix
    object 0, and the rationals are exact up to the equality of fractions. *)
Lemma reported_transform_on_scene :
  running scene_files scene_globals scene_world ∧
  scene_call = (Ok 19, scene_call.2) ∧
  exact_up_to Qeq ∧
  let displacement := transform_base_to_cam_fine_tuned_npy scene_files in
  let cam_to_base := transform_cam_to_base_fine_tuned_npy scene_files in
  let ref := transform_base_to_reference_grasp_npy scene_files in
  heap scene_world !! init_transformation_for_global_registration scene_globals
    = Some (OArray displacement) ∧
  init_transformation_for_global_registration scene_globals
    ≠ transform_base_to_cam_hand_calibrated scene_globals ∧
  ∃ c tdown tfpfh down dn f fast refine Ti q
    r00 r01 r02 r03 r10 r11 r12 r13 r20 r21 r22 r23 r30 r31 r32 r33,
    heap scene_world !! 11 = Some (OCloud c) ∧
    heap scene_world !! target_down scene_globals = Some (OCloud tdown) ∧
    heap scene_world !! target_fpfh scene_globals = Some (OFeature tfpfh) ∧
    voxel_down_sample_of VOXEL_SIZE
      (transform_cloud displacement (transform_cloud cam_to_base (paint blue c)))
      = Ok down ∧
    estimate_normals_of normal_search down = Ok dn ∧
    compute_fpfh_feature_of dn feature_search = Ok f ∧
    registration_fast_based_on_feature_matching_of dn tdown f tfpfh
      {| maximum_correspondence_distance := GLOBAL_DISTANCE_THRESHOLD |} = Ok fast ∧
    registration_icp_of dn tdown ICP_REFINE_DISTANCE_THRESHOLD
      (transformation fast) TransformationEstimationPointToPlane = Ok refine ∧
    transformation refine =
      ((r00, r01, r02, r03), (r10, r11, r12, r13), (r20, r21, r22, r23), (r30, r31, r32, r33)) ∧
    let t00 := sum_of_products r00 0%Q r01 (-1)%Q r02 0%Q r03 0%Q in
    let t01 := sum_of_products r00 1%Q r01 0%Q r02 0%Q r03 0%Q in
    let t02 := sum_of_products r00 0%Q r01 0%Q r02 1%Q r03 0%Q in
    let t03 := sum_of_products r00 0%Q r01 1%Q r02 0%Q r03 1%Q in
    let t10 := sum_of_products r10 0%Q r11 (-1)%Q r12 0%Q r13 0%Q in
    let t11 := sum_of_products r10 1%Q r11 0%Q r12 0%Q r13 0%Q in
    let t12 := sum_of_products r10 0%Q r11 0%Q r12 1%Q r13 0%Q in
    let t13 := sum_of_products r10 0%Q r11 1%Q r12 0%Q r13 1%Q in
    let t20 := sum_of_products r20 0%Q r21 (-1)%Q r22 0%Q r23 0%Q in
    let t21 := sum_of_products r20 1%Q r21 0%Q r22 0%Q r23 0%Q in
    let t22 := sum_of_products r20 0%Q r21 0%Q r22 1%Q r23 0%Q in
    let t23 := sum_of_products r20 0%Q r21 1%Q r22 0%Q r23 1%Q in
    let t30 := sum_of_products r30 0%Q r31 (-1)%Q r32 0%Q r33 0%Q in
    let t31 := sum_of_products r30 1%Q r31 0%Q r32 0%Q r33 0%Q in
    let t32 := sum_of_products r30 0%Q r31 0%Q r32 1%Q r33 0%Q in
    let t33 := sum_of_products r30 0%Q r31 1%Q r32 0%Q r33 1%Q in
    matmul (transformation refine) displacement =
      ((t00, t01, t02, t03), (t10, t11, t12, t13), (t20, t21, t22, t23), (t30, t31, t32, t33)) ∧
    linalg_inv ((t00, t01, t02, t03), (t10, t11, t12, t13),
                (t20, t21, t22, t23), (t30, t31, t32, t33)) = Ok Ti ∧
    linalg_inv (matmul (transformation refine) displacement) = Ok Ti ∧
    from_rotation_matrix (rotation_block (matmul Ti ref)) = Ok q ∧
    heap scene_call.2 !! 19 = Some (OPose (pose_of PoseStamped_new (matmul Ti ref) q)) ∧
    ∀ same : F → F → Prop, exact_up_to same → ∀ x y z u,
      same (sum_of_products t00 x t01 y t02 z t03 u)
        (sum_of_products
            r00 (sum_of_products 0%Q x 1%Q y 0%Q z 0%Q u)
            r01 (sum_of_products (-1)%Q x 0%Q y 0%Q z 1%Q u)
            r02 (sum_of_products 0%Q x 0%Q y 1%Q z 0%Q u)
            r03 (sum_of_products 0%Q x 0%Q y 0%Q z 1%Q u)) ∧
      same (sum_of_products t10 x t11 y t12 z t13 u)
        (sum_of_products
            r10 (sum_of_products 0%Q x 1%Q y 0%Q z 0%Q u)
            r11 (sum_of_products (-1)%Q x 0%Q y 0%Q z 1%Q u)
            r12 (sum_of_products 0%Q x 0%Q y 1%Q z 0%Q u)
            r13 (sum_of_products 0%Q x 0%Q y 0%Q z 1%Q u)) ∧
      same (sum_of_products t20 x t21 y t22 z t23 u)
        (sum_of_products
            r20 (sum_of_products 0%Q x 1%Q y 0%Q z 0%Q u)
            r21 (sum_of_products (-1)%Q x 0%Q y 0%Q z 1%Q u)
            r22 (sum_of_products 0%Q x 0%Q y 1%Q z 0%Q u)
            r23 (sum_of_products 0%Q x 0%Q y 0%Q z 1%Q u)) ∧
      same (sum_of_products t30 x t31 y t32 z t33 u)
        (sum_of_products
            r30 (sum_of_products 0%Q x 1%Q y 0%Q z 0%Q u)
            r31 (sum_of_products (-1)%Q x 0%Q y 0%Q z 1%Q u)
            r32 (sum_of_products 0%Q x 0%Q y 1%Q z 0%Q u)
            r33 (sum_of_products 0%Q x 0%Q y 0%Q z 1%Q u)).
Proof.
  assert (Hcall : scene_call = (Ok 19, scene_call.2)) by (by apply run_eta).
  split; [exact scene_running|]. split; [exact Hcall|]. split; [exact rational_exact|].
  exact (reported_transform_includes_the_displacement scene_files scene_globals scene_world
           11 19 scene_call.2
           0%Q 1%Q 0%Q 0%Q
           (-1)%Q 0%Q 0%Q 1%Q
           0%Q 0%Q 1%Q 0%Q
           0%Q 0%Q 0%Q 1%Q
           scene_running eq_refl Hcall).
Defined.

(** X2 on the scene: the call prints three lines, draws the window with
    both points of the capture, and returns the pose. *)
Lemma call_outcome_on_scene :
  installed scene_globals scene_values scene_world ∧
  holds scene_world 11 (OCloud scene_source) ∧
  out scene_call.2 =
    (out scene_world ++ [fgr_line; icp_line]
       ++ shown scene_values (OCloud scene_in_base) scene_grasp_transform)%list ∧
  scene_call.1 = Ok 19 ∧
  heap scene_call.2 !! 19 = Some (OPose scene_pose).
Proof.
  split; [exact scene_installed|]. split; [exact scene_source_held|].
  exact (call_raises_what_the_first_failing_library_call_raises scene_globals scene_values
           scene_world 11 scene_source scene_installed scene_source_held).
Defined.

(** X4 on the scene: the two poses are objects 19 and 26, the template
    object 10. *)
Lemma scene_poses_are_separate :
  running scene_files scene_globals scene_world ∧
  scene_call = (Ok 19, scene_call.2) ∧
  second_call = (Ok 26, second_call.2) ∧
  19 ≠ 26 ∧ 19 ≠ pose_msg scene_globals ∧ 26 ≠ pose_msg scene_globals ∧
  heap second_call.2 !! 19 = heap scene_call.2 !! 19 ∧
  heap second_call.2 !! pose_msg scene_globals = Some (OPose PoseStamped_new).
Proof.
  assert (H1 : scene_call = (Ok 19, scene_call.2)) by (by apply run_eta).
  assert (H2 : second_call = (Ok 26, second_call.2)) by (by apply run_eta).
  split; [exact scene_running|]. split; [exact H1|]. split; [exact H2|].
  exact (returned_poses_are_separate_objects scene_files scene_globals scene_world 11 11
           19 26 scene_call.2 second_call.2 scene_running H1 H2).
Defined.

End SceneFacts.
